(** * Dukascopy tick downloader: a shallow embedding of [data_download.py]

    The development follows the source file top to bottom: the Python
    runtime fragments the code relies on (exceptions, [bytes], [struct],
    [datetime], binary64 arithmetic), then the methods of
    [DukascopyDownloader], then the properties of the pipeline.

    Conventions.
    - Python [int] is [Z]; [bytes] is [list byte]; [str] is [string].
    - Python [float] is an IEEE-754 binary64 value, represented by the
      standard library's [spec_float] and computed with its operations at
      precision 53 and maximal exponent 1024.
    - A [datetime] is the number of microseconds since 0001-01-01T00:00:00,
      which is the quantity CPython's arithmetic and comparisons work on;
      construction and addition carry CPython's range checks.
    - A [pandas.DataFrame] of ticks is the list of its rows.
    - Code that may raise returns a [result]; [try]/[except Exception] is
      [try_except].  The type [exn] lists the [Exception] subclasses the
      pipeline can meet; signals that are not [Exception]s
      (KeyboardInterrupt, SystemExit) end the process and are not modelled.
    - The network, the LZMA codec, the helpers of [utils] and the sorting
      routine of pandas are not code of this file: they are parameters.
      The routine that pandas and NumPy run for the default [kind] is
      written out in [Numpy], for the runs in which the order of equal
      keys matters. *)

From Stdlib Require Import String Ascii.
From Stdlib Require Import ZArith List Bool Lia.
From Stdlib Require Import Strings.Byte.
From Stdlib Require Import Floats.SpecFloat.
From Stdlib Require Import DecimalString.
From Stdlib Require Import Sorting.Sorted Sorting.Permutation.
Import ListNotations.

Local Open Scope Z_scope.

(* ================================================================== *)
(** * Part I: definitions *)
(* ================================================================== *)

(** ** Exceptions and the result monad *)

Module Py.

Inductive exn : Type :=
| ValidationError   (* raised by the helpers of [utils] *)
| RequestException  (* any transport failure or timeout of [requests.get] *)
| LZMAError         (* [lzma.decompress] on malformed input *)
| StructError       (* [struct.unpack] on a buffer of the wrong size *)
| ValueError        (* [datetime(...)] with a field out of range *)
| OverflowError.    (* [datetime + timedelta] leaving the supported range,
                       or an argument of [datetime(...)] that is no C int *)

Inductive result (A : Type) : Type :=
| Ok (a : A)
| Raise (e : exn).
Arguments Ok {A} a.
Arguments Raise {A} e.

Definition bind {A B} (m : result A) (k : A -> result B) : result B :=
  match m with
  | Ok a => k a
  | Raise e => Raise e
  end.

(** [try: body except Exception as e: handler e] *)
Definition try_except {A} (body : result A) (handler : exn -> result A)
  : result A :=
  match body with
  | Ok a => Ok a
  | Raise e => handler e
  end.

(** [for x in xs: s = body x s], leaving the loop at the first exception. *)
Fixpoint for_each {A S} (xs : list A) (body : A -> S -> result S) (s : S)
  : result S :=
  match xs with
  | [] => Ok s
  | x :: xs' => bind (body x s) (for_each xs' body)
  end.

(** [range(n)] *)
Definition range (n : Z) : list Z := map Z.of_nat (seq 0 (Z.to_nat n)).

End Py.
Import Py.

Declare Scope py_scope.
Delimit Scope py_scope with py.
Notation "x <- m ;; k" := (bind m (fun x => k))
  (at level 61, m at next level, right associativity) : py_scope.
Notation "m >>= k" := (bind m k)
  (at level 58, left associativity) : py_scope.
Notation "' p <- m ;; k" := (bind m (fun x => match x with p => k end))
  (at level 61, p pattern, m at next level, right associativity) : py_scope.
Local Open Scope py_scope.

(** ** [bytes] and [struct.unpack('>IIIff', _)] *)

Definition bytes := list byte.

Definition len {A} (l : list A) : Z := Z.of_nat (length l).

(** [data[lo:hi]] for [0 <= lo <= hi]; like Python, the slice is clipped to
    the end of the buffer. *)
Definition slice {A} (data : list A) (lo hi : Z) : list A :=
  firstn (Z.to_nat (hi - lo)) (skipn (Z.to_nat lo) data).

Definition byte_val (b : byte) : Z := Z.of_N (Byte.to_N b).

(** [int.from_bytes(bs, 'big')] *)
Definition int_from_bytes_big (bs : bytes) : Z :=
  fold_left (fun acc b => Z.lor (Z.shiftl acc 8) (byte_val b)) bs 0.

(** ** binary32 and binary64 values *)

Module Float.

Definition prec64 : Z := 53.
Definition emax64 : Z := 1024.

Definition float := spec_float.

(** Conversion of a Python [int] to [float] (round to nearest even). *)
Definition of_int (n : Z) : float := binary_normalize prec64 emax64 n 0 false.

(** True division of two floats. *)
Definition div (x y : float) : float := SFdiv prec64 emax64 x y.

Definition leb (x y : float) : bool := SFleb x y.

Definition zero : float := S754_zero false.

(** The value denoted by a binary32 bit pattern: one sign bit, eight
    exponent bits biased by 127, twenty-three fraction bits. *)
Definition of_bits32 (w : Z) : spec_float :=
  let s := Z.testbit w 31 in
  let e := Z.land (Z.shiftr w 23) 255 in
  let m := Z.land w 8388607 in
  if e =? 0 then
    match m with
    | Zpos p => S754_finite s p (-149)
    | _ => S754_zero s
    end
  else if e =? 255 then
    if m =? 0 then S754_infinity s else S754_nan
  else
    S754_finite s (Z.to_pos (m + 8388608)) (e - 150).

(** A binary32 value read as a Python [float]: the same number in
    binary64 form. *)
Definition widen (x : spec_float) : float :=
  match x with
  | S754_finite s m e => binary_round prec64 emax64 s m e
  | _ => x
  end.

Definition unpack_f (bs : bytes) : float :=
  widen (of_bits32 (int_from_bytes_big bs)).

End Float.

(** The five fields of one record, as [struct.unpack('>IIIff', chunk)]
    returns them.  [struct.error] is raised unless the buffer has exactly
    [struct.calcsize('>IIIff') = 20] bytes. *)
Definition struct_unpack_IIIff (chunk : bytes)
  : result (Z * Z * Z * Float.float * Float.float) :=
  if len chunk =? 20 then
    Ok (int_from_bytes_big (slice chunk 0 4),
        int_from_bytes_big (slice chunk 4 8),
        int_from_bytes_big (slice chunk 8 12),
        Float.unpack_f (slice chunk 12 16),
        Float.unpack_f (slice chunk 16 20))
  else Raise StructError.

(** ** [datetime] and [timedelta] *)

Module Datetime.

(** The calendar fields of the [dt] argument that the code reads. *)
Record date : Type := mk_date { year : Z; month : Z; day : Z }.

Definition datetime := Z.   (* microseconds since 0001-01-01T00:00:00 *)
Definition timedelta := Z.  (* microseconds *)

Definition MINYEAR : Z := 1.
Definition MAXYEAR : Z := 9999.
Definition MAXORDINAL : Z := 3652059.   (* date.max.toordinal() *)

Definition us_per_day : Z := 86400000000.

Definition _is_leap (y : Z) : bool :=
  (y mod 4 =? 0) && (negb (y mod 100 =? 0) || (y mod 400 =? 0)).

Definition _days_before_year (y : Z) : Z :=
  let y' := y - 1 in y' * 365 + y' / 4 - y' / 100 + y' / 400.

Definition _DAYS_IN_MONTH : list Z :=
  [-1; 31; 28; 31; 30; 31; 30; 31; 31; 30; 31; 30; 31].

Definition _DAYS_BEFORE_MONTH : list Z :=
  [-1; 0; 31; 59; 90; 120; 151; 181; 212; 243; 273; 304; 334].

Definition _days_in_month (y m : Z) : Z :=
  if (m =? 2) && _is_leap y then 29
  else nth (Z.to_nat m) _DAYS_IN_MONTH (-1).

Definition _days_before_month (y m : Z) : Z :=
  nth (Z.to_nat m) _DAYS_BEFORE_MONTH (-1)
  + (if (2 <? m) && _is_leap y then 1 else 0).

Definition _ymd2ord (y m d : Z) : Z :=
  _days_before_year y + _days_before_month y m + d.

Definition valid_date_fields (y m d : Z) : bool :=
  (MINYEAR <=? y) && (y <=? MAXYEAR) && (1 <=? m) && (m <=? 12)
  && (1 <=? d) && (d <=? _days_in_month y m).

Definition valid_time_fields (hh mm ss : Z) : bool :=
  (0 <=? hh) && (hh <=? 23) && (0 <=? mm) && (mm <=? 59)
  && (0 <=? ss) && (ss <=? 59).

(** The range of a C [int]. *)
Definition fits_c_int (z : Z) : bool :=
  (-2147483648 <=? z) && (z <=? 2147483647).

(** [datetime(year, month, day, hour, minute, second)]: CPython first
    converts every argument to a C [int], which raises OverflowError, and
    then checks the fields, which raises ValueError. *)
Definition datetime_new (y m d hh mm ss : Z) : result datetime :=
  if negb (forallb fits_c_int [y; m; d; hh; mm; ss]) then Raise OverflowError
  else if valid_date_fields y m d && valid_time_fields hh mm ss then
    Ok (((_ymd2ord y m d - 1) * 86400 + hh * 3600 + mm * 60 + ss) * 1000000)
  else Raise ValueError.

(** [timedelta(milliseconds=ms)] *)
Definition timedelta_milliseconds (ms : Z) : timedelta := ms * 1000.

(** [datetime.__add__]: the sum must stay within
    0001-01-01T00:00:00 .. 9999-12-31T23:59:59.999999. *)
Definition datetime_add (t : datetime) (d : timedelta) : result datetime :=
  let r := t + d in
  if (0 <=? r) && (r <? MAXORDINAL * us_per_day) then Ok r
  else Raise OverflowError.

End Datetime.
Import Datetime.

(** ** Ticks and frames *)

Record Tick : Type := mk_tick {
  timestamp : datetime;
  ask : Float.float;
  bid : Float.float;
  ask_volume : Float.float;
  bid_volume : Float.float
}.

Definition DataFrame := list Tick.

(** [pd.DataFrame()] and [pd.DataFrame(ticks)] *)
Definition pd_DataFrame_empty : DataFrame := [].
Definition pd_DataFrame (ticks : list Tick) : DataFrame := ticks.

(** [df.empty] *)
Definition empty (df : DataFrame) : bool :=
  match df with [] => true | _ :: _ => false end.

(** [not frames] for a Python list *)
Definition empty_list {A} (l : list A) : bool :=
  match l with [] => true | _ :: _ => false end.

(** [pd.concat(frames, ignore_index=True)] *)
Definition pd_concat (frames : list DataFrame) : DataFrame := concat frames.

(** The column labels, in the insertion order of the dictionary built for
    each tick. *)
Definition tick_columns : list string :=
  ["timestamp"%string; "ask"%string; "bid"%string;
   "ask_volume"%string; "bid_volume"%string].

Inductive cell : Type :=
| CTime (t : datetime)
| CFloat (x : Float.float).

Definition tick_cells (t : Tick) : list cell :=
  [CTime (timestamp t); CFloat (ask t); CFloat (bid t);
   CFloat (ask_volume t); CFloat (bid_volume t)].

(** ** The record parser *)

Definition chunk_size : Z := 20.

(** One iteration of the loop of [_parse_bi5]. *)
Definition _parse_bi5_step (data : bytes) (base_time : datetime)
    (i : Z) (ticks : list Tick) : result (list Tick) :=
  let chunk := slice data (i * chunk_size) ((i + 1) * chunk_size) in
  '(timestamp_ms, ask_int, bid_int, ask_vol, bid_vol)
     <- struct_unpack_IIIff chunk ;;
  timestamp <- datetime_add base_time (timedelta_milliseconds timestamp_ms) ;;
  let ask := Float.div (Float.of_int ask_int) (Float.of_int 100000) in
  let bid := Float.div (Float.of_int bid_int) (Float.of_int 100000) in
  Ok (ticks ++ [mk_tick timestamp ask bid ask_vol bid_vol]).

Definition _parse_bi5 (data : bytes) (dt : date) (hour : Z)
  : result DataFrame :=
  if len data =? 0 then Ok pd_DataFrame_empty
  else
    let num_ticks := len data / chunk_size in
    base_time <- datetime_new (year dt) (month dt) (day dt) hour 0 0 ;;
    ticks <- for_each (range num_ticks) (_parse_bi5_step data base_time) [] ;;
    Ok (pd_DataFrame ticks).

(** ** Text formatting and paths *)

Local Open Scope string_scope.
Local Open Scope list_scope.
Local Open Scope Z_scope.

(** The decimal digits of a non-negative [int]. *)
Definition decimal (n : Z) : string :=
  NilZero.string_of_uint (N.to_uint (Z.to_N n)).

Fixpoint zeros (k : nat) : string :=
  match k with
  | O => ""
  | S k' => String "0" (zeros k')
  end.

Definition strlen (s : string) : Z := Z.of_nat (String.length s).

(** [format(n, '0<width>d')]: sign-aware zero padding to a minimal width. *)
Definition format_0d (width : Z) (n : Z) : string :=
  let sign := if n <? 0 then "-" else "" in
  let digits := decimal (Z.abs n) in
  let fill := zeros (Z.to_nat (width - strlen sign - strlen digits)) in
  (sign ++ fill ++ digits)%string.

Definition startswith_sep (s : string) : bool :=
  match s with
  | String "/" _ => true
  | _ => false
  end.

Fixpoint endswith_sep (s : string) : bool :=
  match s with
  | "" => false
  | String c "" => Ascii.eqb c "/"
  | String _ rest => endswith_sep rest
  end.

(** [os.path.join(a, b)] (posixpath) *)
Definition os_path_join (a b : string) : string :=
  if startswith_sep b then b
  else if (strlen a =? 0) || endswith_sep a then (a ++ b)%string
  else (a ++ "/" ++ b)%string.

(** ** The downloader object *)

Record DukascopyDownloader : Type := mk_downloader {
  pair : string;        (* as returned by [validate_currency_pair] *)
  output_dir : string
}.

Definition BASE_URL : string := "https://datafeed.dukascopy.com/datafeed".

Definition _get_tick_url (self : DukascopyDownloader) (dt : date) (hour : Z)
  : string :=
  let year := year dt in
  let month := month dt - 1 in
  let day := day dt in
  (BASE_URL ++ "/" ++ pair self ++ "/"
   ++ format_0d 4 year ++ "/" ++ format_0d 2 month ++ "/"
   ++ format_0d 2 day ++ "/"
   ++ format_0d 2 hour ++ "h_ticks.bi5")%string.

(** ** The environment of a run *)

Record Response : Type := mk_response {
  status_code : Z;
  content : bytes
}.

(** The file written by [to_csv(filepath, index=False)]: a header row and
    one row of cells per row of the frame. *)
Record csv_table : Type := mk_csv {
  header : list string;
  rows : list (list cell)
}.

Record file_write : Type := mk_write {
  filepath : string;
  table : csv_table
}.

(** Durable storage, as the sequence of files written so far. *)
Definition storage := list file_write.

(** [df.to_csv(path, index=False)]; the write itself is taken to succeed. *)
Definition to_csv (df : DataFrame) (path : string) (fs : storage) : storage :=
  fs ++ [mk_write path (mk_csv tick_columns (map tick_cells df))].

(** What the code takes from outside this file. *)
Record Env : Type := mk_env {
  (** [requests.get(url, timeout=t)] *)
  requests_get : string -> Z -> result Response;
  (** [lzma.decompress] *)
  lzma_decompress : bytes -> result bytes;
  (** [utils.validate_date_range] *)
  validate_date_range : string -> string -> result (date * date);
  (** [utils.generate_date_range] *)
  generate_date_range : date -> date -> result (list date);
  (** [df.sort_values('timestamp')], with the default [kind] *)
  sort_values_timestamp : DataFrame -> DataFrame
}.

Definition ts_le (a b : Tick) : Prop := timestamp a <= timestamp b.

(** What pandas promises of [sort_values] with its default [kind]
    ('quicksort'): the rows of the argument, in ascending order of the key.
    Only [kind='mergesort'] and [kind='stable'] are documented to keep the
    order of rows with equal keys. *)
Definition sort_contract (sort : DataFrame -> DataFrame) : Prop :=
  (forall df, Permutation (sort df) df) /\
  (forall df, Sorted ts_le (sort df)).

(** ** The sorting routine behind [sort_values]

    [DataFrame.sort_values('timestamp')] with the default [kind] hands the
    datetime64 keys to NumPy's [argsort] with [kind='quicksort'] and takes
    the rows in the order of the indices it returns.  For datetime64 keys
    that routine is the introsort [aquicksort_] of NumPy's
    npysort/quicksort.cpp: median-of-three quicksort on an array of indices,
    insertion sort on segments of at most 17 entries, heapsort when the
    recursion gets too deep.  It is library code, not code of this
    repository; it is written out here because the order of rows with equal
    keys depends on it.  In the loops below the fuel is the length of the
    array, which the loops of the C code never exceed. *)

Module Numpy.

Definition SMALL_QUICKSORT : Z := 16.

(** [npy_get_msb] *)
Definition npy_get_msb (n : Z) : Z := Z.log2 n.

(** The keys contain no NaT: pandas sorts the missing values apart. *)
Definition less (a b : Z) : bool := a <? b.

Definition get (a : list nat) (i : Z) : nat := nth (Z.to_nat i) a 0%nat.

Fixpoint set_nth (a : list nat) (i : nat) (x : nat) : list nat :=
  match a, i with
  | [], _ => []
  | _ :: a', O => x :: a'
  | y :: a', S i' => y :: set_nth a' i' x
  end.

Definition set (a : list nat) (i : Z) (x : nat) : list nat :=
  if i <? 0 then a else set_nth a (Z.to_nat i) x.

(** [v[a[i]]] *)
Definition key (v : list Z) (a : list nat) (i : Z) : Z := nth (get a i) v 0.

(** [INTP_SWAP(a[i], a[j])] *)
Definition swap (a : list nat) (i j : Z) : list nat :=
  set (set a i (get a j)) j (get a i).

(** [do { ++pi; } while (less(v[*pi], vp));] *)
Fixpoint scan_up (fuel : nat) (v : list Z) (vp : Z) (a : list nat) (pi : Z)
  : Z :=
  let pi := pi + 1 in
  match fuel with
  | O => pi
  | S fuel' =>
      if less (key v a pi) vp then scan_up fuel' v vp a pi else pi
  end.

(** [do { --pj; } while (less(vp, v[*pj]));] *)
Fixpoint scan_down (fuel : nat) (v : list Z) (vp : Z) (a : list nat) (pj : Z)
  : Z :=
  let pj := pj - 1 in
  match fuel with
  | O => pj
  | S fuel' =>
      if less vp (key v a pj) then scan_down fuel' v vp a pj else pj
  end.

(** The [for (;;)] loop of the partition; returns the array and [pi]. *)
Fixpoint partition_loop (fuel : nat) (v : list Z) (vp : Z) (a : list nat)
    (pi pj : Z) : list nat * Z :=
  let pi := scan_up (length a) v vp a pi in
  let pj := scan_down (length a) v vp a pj in
  if pi >=? pj then (a, pi)
  else
    match fuel with
    | O => (a, pi)
    | S fuel' => partition_loop fuel' v vp (swap a pi pj) pi pj
    end.

(** The inner [while (pj > pl && less(vp, v[*pk]))] loop of the insertion
    sort, with [pk = pj - 1]; returns the array and [pj]. *)
Fixpoint shift_loop (fuel : nat) (v : list Z) (vp : Z) (pl : Z)
    (a : list nat) (pj : Z) : list nat * Z :=
  match fuel with
  | O => (a, pj)
  | S fuel' =>
      if (pl <? pj) && less vp (key v a (pj - 1))
      then shift_loop fuel' v vp pl (set a pj (get a (pj - 1))) (pj - 1)
      else (a, pj)
  end.

(** [for (pi = pl + 1; pi <= pr; ++pi) ...] *)
Definition insertion_sort (v : list Z) (a : list nat) (pl pr : Z)
  : list nat :=
  fold_left
    (fun a pi =>
       let vi := get a pi in
       let vp := nth vi v 0 in
       let '(a', pj) := shift_loop (length a) v vp pl a pi in
       set a' pj vi)
    (map (fun k => pl + 1 + k) (range (pr - pl))) a.

(** The sift-down loop shared by the two phases of [aheapsort_]; [a[k]] of
    the C code, which indexes from one, is entry [off + k - 1] here. *)
Fixpoint sift (fuel : nat) (v : list Z) (off n : Z) (tmp : nat)
    (a : list nat) (i j : Z) : list nat * Z :=
  match fuel with
  | O => (a, i)
  | S fuel' =>
      if j <=? n then
        let j := if (j <? n)
                    && less (key v a (off + j - 1)) (key v a (off + j))
                 then j + 1 else j in
        if less (nth tmp v 0) (key v a (off + j - 1))
        then sift fuel' v off n tmp
                  (set a (off + i - 1) (get a (off + j - 1))) j (j + j)
        else (a, i)
      else (a, i)
  end.

(** [aheapsort_(vv, pl, n)] on the [n] entries from [off] on. *)
Definition aheapsort (v : list Z) (a : list nat) (off n : Z) : list nat :=
  let build :=
    fold_left
      (fun a l =>
         let tmp := get a (off + l - 1) in
         let '(a', i) := sift (length a) v off n tmp a l (l + l) in
         set a' (off + i - 1) tmp)
      (map (fun k => n / 2 - k) (range (n / 2))) a in
  fold_left
    (fun a n =>
       let tmp := get a (off + n - 1) in
       let a := set a (off + n - 1) (get a off) in
       let n := n - 1 in
       let '(a', i) := sift (length a) v off n tmp a 1 2 in
       set a' (off + i - 1) tmp)
    (map (fun k => n - k) (range (n - 1))) build.

Record state : Type := mk_state {
  tosort : list nat;
  pl : Z;
  pr : Z;
  stack : list (Z * Z);      (* the saved [pl], [pr] pairs, last pushed first *)
  cdepth : Z;
  psdepth : list Z           (* the saved depths, last pushed first *)
}.

(** One turn of [while ((pr - pl) > SMALL_QUICKSORT)]. *)
Definition partition_step (v : list Z) (s : state) : state :=
  let a := tosort s in
  let pl := pl s in
  let pr := pr s in
  let pm := pl + Z.shiftr (pr - pl) 1 in
  let a := if less (key v a pm) (key v a pl) then swap a pm pl else a in
  let a := if less (key v a pr) (key v a pm) then swap a pr pm else a in
  let a := if less (key v a pm) (key v a pl) then swap a pm pl else a in
  let vp := key v a pm in
  let pi := pl in
  let pj := pr - 1 in
  let a := swap a pm pj in
  let '(a, pi) := partition_loop (length a) v vp a pi pj in
  let pk := pr - 1 in
  let a := swap a pi pk in
  let cdepth := cdepth s - 1 in
  if pi - pl <? pr - pi
  then mk_state a pl (pi - 1) ((pi + 1, pr) :: stack s) cdepth
                (cdepth :: psdepth s)
  else mk_state a (pi + 1) pr ((pl, pi - 1) :: stack s) cdepth
                (cdepth :: psdepth s).

Fixpoint partition_while (fuel : nat) (v : list Z) (s : state) : state :=
  if pr s - pl s >? SMALL_QUICKSORT then
    match fuel with
    | O => s
    | S fuel' => partition_while fuel' v (partition_step v s)
    end
  else s.

(** The body of [while (1)] up to [stack_pop]. *)
Definition sort_segment (v : list Z) (s : state) : state :=
  if cdepth s <? 0 then
    mk_state (aheapsort v (tosort s) (pl s) (pr s - pl s + 1))
             (pl s) (pr s) (stack s) (cdepth s) (psdepth s)
  else
    let s := partition_while (length (tosort s)) v s in
    mk_state (insertion_sort v (tosort s) (pl s) (pr s))
             (pl s) (pr s) (stack s) (cdepth s) (psdepth s).

Fixpoint main_loop (fuel : nat) (v : list Z) (s : state) : list nat :=
  let s := sort_segment v s in
  match stack s with
  | [] => tosort s
  | (pl', pr') :: rest =>
      match fuel with
      | O => tosort s
      | S fuel' =>
          main_loop fuel' v
            (mk_state (tosort s) pl' pr' rest (hd 0 (psdepth s))
                      (tl (psdepth s)))
      end
  end.

(** [np.argsort(v, kind='quicksort')]: the indices start as 0, 1, ... *)
Definition argsort (v : list Z) : list nat :=
  let num := len v in
  main_loop (length v) v
    (mk_state (seq 0 (length v)) 0 (num - 1) [] (npy_get_msb num * 2) []).

End Numpy.

(** [df.sort_values('timestamp')], default [kind], on a frame whose
    timestamps are all present: the rows in the order of [argsort]. *)
Definition sort_values_quicksort (df : DataFrame) : DataFrame :=
  flat_map (fun i => match nth_error df i with
                     | Some row => [row]
                     | None => []
                     end)
           (Numpy.argsort (map timestamp df)).

Section Downloader.

Variable env : Env.
Variable self : DukascopyDownloader.

Definition _download_file (url : string) : result (option bytes) :=
  try_except
    (response <- requests_get env url 30 ;;
     if status_code response =? 200
     then Ok (Some (content response))
     else Ok None)
    (fun _ => Ok None).

Definition _decompress_bi5 (compressed_data : bytes) : result bytes :=
  lzma_decompress env compressed_data.

(** One iteration of the loop of [download_day]; every [continue] leaves
    [day_ticks] as it is. *)
Definition download_day_step (dt : date) (hour : Z)
    (day_ticks : list DataFrame) : result (list DataFrame) :=
  let url := _get_tick_url self dt hour in
  compressed_data <- _download_file url ;;
  match compressed_data with
  | None => Ok day_ticks
  | Some compressed_data =>
      try_except
        (decompressed_data <- _decompress_bi5 compressed_data ;;
         Ok (Some decompressed_data))
        (fun _ => Ok None)
      >>= fun decompressed_data =>
      match decompressed_data with
      | None => Ok day_ticks
      | Some decompressed_data =>
          try_except
            (hour_df <- _parse_bi5 decompressed_data dt hour ;;
             if negb (empty hour_df)
             then Ok (day_ticks ++ [hour_df])
             else Ok day_ticks)
            (fun _ => Ok day_ticks)
      end
  end.

Definition download_day (dt : date) : result DataFrame :=
  day_ticks <- for_each (range 24) (download_day_step dt) [] ;;
  if empty_list day_ticks then Ok pd_DataFrame_empty
  else Ok (pd_concat day_ticks).

(** One iteration of the loop of [download_range]. *)
Definition download_range_step (dt : date) (all_ticks : list DataFrame)
  : result (list DataFrame) :=
  day_df <- download_day dt ;;
  if negb (empty day_df) then Ok (all_ticks ++ [day_df])
  else Ok all_ticks.

(** [download_range], threading the storage it may write to. *)
Definition download_range (start_date end_date : string) (save : bool)
    (fs : storage) : result DataFrame * storage :=
  match validate_date_range env start_date end_date with
  | Raise e => (Raise e, fs)
  | Ok (start_dt, end_dt) =>
  match generate_date_range env start_dt end_dt with
  | Raise e => (Raise e, fs)
  | Ok dates =>
  match for_each dates download_range_step [] with
  | Raise e => (Raise e, fs)
  | Ok all_ticks =>
      if empty_list all_ticks then (Ok pd_DataFrame_empty, fs)
      else
        let combined_df := pd_concat all_ticks in
        let combined_df := sort_values_timestamp env combined_df in
        if save then
          let filename :=
            (pair self ++ "_" ++ start_date ++ "_" ++ end_date
             ++ ".csv")%string in
          let filepath := os_path_join (output_dir self) filename in
          (Ok combined_df, to_csv combined_df filepath fs)
        else (Ok combined_df, fs)
  end end end.

End Downloader.

(** ** Vocabulary of the statements *)

(** The byte at index [i] of a buffer, as a number in [0, 255]. *)
Definition byte_at (data : bytes) (i : Z) : Z :=
  byte_val (nth (Z.to_nat i) data x00).

(** The unsigned 32-bit integer stored big-endian at offset [o]: the most
    significant byte comes first. *)
Definition be_uint32 (data : bytes) (o : Z) : Z :=
  byte_at data o * 16777216 + byte_at data (o + 1) * 65536
  + byte_at data (o + 2) * 256 + byte_at data (o + 3).

(** The binary32 value stored big-endian at offset [o]. *)
Definition be_float32 (data : bytes) (o : Z) : Float.float :=
  Float.widen (Float.of_bits32 (be_uint32 data o)).

(** The start of hour [hour] of the day [dt]. *)
Definition hour_start (dt : date) (hour : Z) : result datetime :=
  datetime_new (year dt) (month dt) (day dt) hour 0 0.

(** The tick that the record number [i] of a buffer stands for. *)
Definition record_tick (data : bytes) (base : datetime) (i : Z) : Tick :=
  let o := 20 * i in
  mk_tick (base + timedelta_milliseconds (be_uint32 data o))
          (Float.div (Float.of_int (be_uint32 data (o + 4)))
                     (Float.of_int 100000))
          (Float.div (Float.of_int (be_uint32 data (o + 8)))
                     (Float.of_int 100000))
          (be_float32 data (o + 12))
          (be_float32 data (o + 16)).

(** The hour starts at a valid instant, and every 32-bit millisecond offset
    added to it stays within the range of [datetime]. *)
Definition offsets_fit (dt : date) (hour : Z) : bool :=
  match hour_start dt hour with
  | Ok base =>
      base + timedelta_milliseconds 4294967295 <? MAXORDINAL * us_per_day
  | Raise _ => false
  end.

(** [0.0 <= x] *)
Definition nonneg (x : Float.float) : Prop := Float.leb Float.zero x = true.

(** A decimal digit and fixed-width decimal fields. *)
Definition digit (n : Z) : ascii := ascii_of_nat (48 + Z.to_nat n).

Definition two_digits (n : Z) : string :=
  String (digit (n / 10)) (String (digit (n mod 10)) "").

Definition four_digits (n : Z) : string :=
  String (digit (n / 1000)) (String (digit (n / 100 mod 10))
    (String (digit (n / 10 mod 10)) (String (digit (n mod 10)) ""))).

Definition nonempty (df : DataFrame) : bool := negb (empty df).

(** The records one hour contributes to its day: those parsed from the
    decompressed payload when every stage succeeds, none otherwise. *)
Definition hour_records (env : Env) (self : DukascopyDownloader)
    (dt : date) (hour : Z) : DataFrame :=
  match requests_get env (_get_tick_url self dt hour) 30 with
  | Raise _ => []
  | Ok response =>
      if status_code response =? 200 then
        match lzma_decompress env (content response) with
        | Raise _ => []
        | Ok raw =>
            match _parse_bi5 raw dt hour with
            | Raise _ => []
            | Ok df => df
            end
        end
      else []
  end.

(** The records of one day: the non-empty hours, in hour order. *)
Definition day_records (env : Env) (self : DukascopyDownloader) (dt : date)
  : DataFrame :=
  pd_concat (filter nonempty (map (hour_records env self dt) (range 24))).

(** Rows with equal timestamps keep the order they have in [arrival]. *)
Definition keeps_arrival_order (out arrival : DataFrame) : Prop :=
  forall t : datetime,
    filter (fun r => timestamp r =? t) out
    = filter (fun r => timestamp r =? t) arrival.

(** The file name [download_range] saves under. *)
Definition csv_path (self : DukascopyDownloader) (start_date end_date : string)
  : string :=
  os_path_join (output_dir self)
    (pair self ++ "_" ++ start_date ++ "_" ++ end_date ++ ".csv")%string.

(** ** Two sorting routines that meet [sort_contract]

    Both are insertion sorts on the timestamp.  The first places a row
    before the rows with the same timestamp that are already placed, and
    keeps arrival order; the second places it after them, and reverses the
    arrival order of equal timestamps. *)

Fixpoint insert_by (before : Tick -> Tick -> bool) (t : Tick)
    (l : DataFrame) : DataFrame :=
  match l with
  | [] => [t]
  | u :: l' => if before t u then t :: l else u :: insert_by before t l'
  end.

Definition sort_by (before : Tick -> Tick -> bool) (df : DataFrame)
  : DataFrame :=
  fold_right (insert_by before) [] df.

Definition sort_keeping_ties : DataFrame -> DataFrame :=
  sort_by (fun t u => timestamp t <=? timestamp u).

Definition sort_reversing_ties : DataFrame -> DataFrame :=
  sort_by (fun t u => timestamp t <? timestamp u).

(** ** Sample runs *)

Module Sample.

Definition mkbytes (l : list Z) : bytes :=
  map (fun z => match Byte.of_N (Z.to_N z) with
                | Some b => b
                | None => x00
                end) l.

Definition eurusd : DukascopyDownloader := mk_downloader "EURUSD" "data/raw".

Definition jan15 : date := mk_date 2024 1 15.
Definition jan16 : date := mk_date 2024 1 16.
Definition last_day : date := mk_date 9999 12 31.

(** offset 1000 ms, ask 1.12345, bid 1.12328, volumes 1.0 and 2.0 *)
Definition record_a : bytes :=
  mkbytes [0;0;3;232; 0;1;182;217; 0;1;182;200; 63;128;0;0; 64;0;0;0].

(** offset 1000 ms, ask 1.12346, bid 1.12329, volumes 1.5 and 0.5 *)
Definition record_b : bytes :=
  mkbytes [0;0;3;232; 0;1;182;218; 0;1;182;201; 63;192;0;0; 63;0;0;0].

(** offset 250 ms *)
Definition record_c : bytes :=
  mkbytes [0;0;0;250; 0;1;182;210; 0;1;182;190; 63;128;0;0; 63;128;0;0].

(** offset 2^32 - 1 ms *)
Definition record_late : bytes :=
  mkbytes [255;255;255;255; 0;1;182;217; 0;1;182;200; 63;128;0;0; 64;0;0;0].

(** The ticks of [record_a] and [record_b] in hour 0 of 2024-01-15. *)
Definition tick_a : Tick :=
  mk_tick 63840873601000000
          (S754_finite false 5059569001369384 (-52))
          (S754_finite false 5058803389432731 (-52))
          (S754_finite false 4503599627370496 (-52))
          (S754_finite false 4503599627370496 (-51)).

Definition tick_b : Tick :=
  mk_tick 63840873601000000
          (S754_finite false 5059614037365657 (-52))
          (S754_finite false 5058848425429004 (-52))
          (S754_finite false 6755399441055744 (-52))
          (S754_finite false 4503599627370496 (-53)).

(** The tick of [record_a] in hour 3 of 2024-01-15. *)
Definition tick_a3 : Tick :=
  mk_tick 63840884401000000
          (S754_finite false 5059569001369384 (-52))
          (S754_finite false 5058803389432731 (-52))
          (S754_finite false 4503599627370496 (-52))
          (S754_finite false 4503599627370496 (-51)).

Definition payload (n : nat) (record : bytes) : bytes :=
  concat (repeat record n).

(** The codec of the sample runs: the payload is stored as it is, and a
    payload starting with byte 255 is corrupt. *)
Definition codec (b : bytes) : result bytes :=
  match b with
  | xff :: _ => Raise LZMAError
  | _ => Ok b
  end.

Definition url (dt : date) (hour : Z) : string :=
  _get_tick_url eurusd dt hour.

(** A feed with data for 2024-01-15 only: hour 2 has 100 ticks, hour 5 has
    50, hour 7 times out, hour 9 is corrupt, hour 11 has a truncated
    record, and everything else is absent. *)
Definition feed (u : string) (timeout : Z) : result Response :=
  if String.eqb u (url jan15 2)
  then Ok (mk_response 200 (payload 100 record_a))
  else if String.eqb u (url jan15 5)
  then Ok (mk_response 200 (payload 50 record_c))
  else if String.eqb u (url jan15 7)
  then Raise RequestException
  else if String.eqb u (url jan15 9)
  then Ok (mk_response 200 (mkbytes [255; 1; 2]))
  else if String.eqb u (url jan15 11)
  then Ok (mk_response 200 (mkbytes [1; 2; 3]))
  else Ok (mk_response 404 []).

(** A feed with two ticks of equal timestamp in hour 0 of 2024-01-15. *)
Definition feed_pair (u : string) (timeout : Z) : result Response :=
  if String.eqb u (url jan15 0)
  then Ok (mk_response 200 (record_a ++ record_b))
  else Ok (mk_response 404 []).

(** The four bytes of an unsigned 32-bit integer, most significant
    first. *)
Definition uint32_bytes (n : Z) : bytes :=
  mkbytes [n / 16777216 mod 256; n / 65536 mod 256; n / 256 mod 256;
           n mod 256].

(** offset 1000 ms, ask (100000 + i) / 100000, bid 1.0, volumes 1.0 *)
Definition record_numbered (i : Z) : bytes :=
  uint32_bytes 1000 ++ uint32_bytes (100000 + i) ++ uint32_bytes 100000
  ++ mkbytes [63; 128; 0; 0; 63; 128; 0; 0].

(** The tick of [record_numbered i] in hour 0 of 2024-01-15. *)
Definition tick_numbered (i : Z) : Tick :=
  mk_tick 63840873601000000
          (Float.div (Float.of_int (100000 + i)) (Float.of_int 100000))
          (Float.div (Float.of_int 100000) (Float.of_int 100000))
          (S754_finite false 4503599627370496 (-52))
          (S754_finite false 4503599627370496 (-52)).

(** A feed with one hundred ticks of one timestamp and one hundred
    different ask prices in hour 0 of 2024-01-15. *)
Definition feed_ties (u : string) (timeout : Z) : result Response :=
  if String.eqb u (url jan15 0)
  then Ok (mk_response 200 (concat (map record_numbered (range 100))))
  else Ok (mk_response 404 []).

(** A feed without any data. *)
Definition feed_absent (u : string) (timeout : Z) : result Response :=
  Ok (mk_response 404 []).

Definition two_days (s e : string) : result (date * date) :=
  Ok (jan15, jan16).

Definition rejects (s e : string) : result (date * date) :=
  Raise ValidationError.

Definition expand (s e : date) : result (list date) := Ok [s; e].

Definition env_feed : Env :=
  mk_env feed codec two_days expand sort_keeping_ties.

Definition env_pair : Env :=
  mk_env feed_pair codec two_days expand sort_reversing_ties.

(** The feed of equal timestamps, sorted as pandas and NumPy sort it. *)
Definition env_ties : Env :=
  mk_env feed_ties codec two_days expand sort_values_quicksort.

(** The feed of two ticks, sorted by a routine that keeps ties; on fewer
    than eighteen rows the routine of NumPy is an insertion sort that keeps
    them too. *)
Definition env_pair_kept : Env :=
  mk_env feed_pair codec two_days expand sort_keeping_ties.

Definition env_absent : Env :=
  mk_env feed_absent codec two_days expand sort_keeping_ties.

Definition env_rejecting : Env :=
  mk_env feed codec rejects expand sort_keeping_ties.

End Sample.

(** ** Vocabulary of the further properties *)

(** The offset of record [i] keeps the timestamp below the end of
    [datetime]'s range. *)
Definition record_fits (data : bytes) (base : datetime) (i : Z) : bool :=
  base + timedelta_milliseconds (be_uint32 data (20 * i))
  <? MAXORDINAL * us_per_day.

(** The millisecond offsets of the complete records of a buffer, in buffer
    order. *)
Definition offsets (data : bytes) : list Z :=
  map (fun i => be_uint32 data (20 * i)) (range (len data / chunk_size)).

(** The fields a [datetime] and an hour of the day can have. *)
Definition locator_input (dt : date) (hour : Z) : Prop :=
  1 <= year dt <= 9999 /\ 1 <= month dt <= 12 /\ 1 <= day dt <= 31 /\
  0 <= hour <= 23.

(** The sum of [f x] over the elements [x] of a list. *)
Definition sum_over {A} (f : A -> Z) (l : list A) : Z :=
  fold_right (fun x acc => f x + acc) 0 l.

(** The sample feed with the request for hour 2 of 2024-01-15 timing out. *)
Definition feed_without_hour_2 (u : string) (timeout : Z) : result Response :=
  if String.eqb u (Sample.url Sample.jan15 2) then Raise RequestException
  else Sample.feed u timeout.

Definition env_without_hour_2 : Env :=
  mk_env feed_without_hour_2 Sample.codec Sample.two_days Sample.expand
         sort_keeping_ties.

(** A binary64 value that is a number: neither an infinity nor NaN. *)
Definition is_finite (x : Float.float) : bool :=
  match x with
  | S754_zero _ | S754_finite _ _ _ => true
  | S754_infinity _ | S754_nan => false
  end.

(** ** The constructor and the command line *)






(** The same environment with another sorting routine. *)
Definition with_sort (env : Env) (sort : DataFrame -> DataFrame) : Env :=
  mk_env (requests_get env) (lzma_decompress env) (validate_date_range env)
         (generate_date_range env) sort.

(** A feed with two ticks of different timestamps, the later one first, in
    hour 0 of 2024-01-15. *)
Definition feed_distinct (u : string) (timeout : Z) : result Response :=
  if String.eqb u (Sample.url Sample.jan15 0)
  then Ok (mk_response 200 (Sample.record_a ++ Sample.record_c))
  else Ok (mk_response 404 []).

Definition env_distinct : Env :=
  mk_env feed_distinct Sample.codec Sample.two_days Sample.expand
         sort_keeping_ties.

(* ================================================================== *)
(** * Part II: properties *)
(* ================================================================== *)

(** ** Bytes and big-endian integers *)

Lemma byte_val_range (b : byte) : 0 <= byte_val b < 256.
Proof.
  unfold byte_val. pose proof (Byte.to_N_bounded b). lia.
Qed.

Lemma lor_shiftl_byte (acc b : Z) :
  0 <= b < 256 -> Z.lor (Z.shiftl acc 8) b = acc * 256 + b.
Proof.
  intros Hb.
  rewrite Z.shiftl_mul_pow2 by lia.
  change (2 ^ 8) with 256.
  rewrite <- Z.add_lor_land.
  assert (Hland : Z.land (acc * 256) b = 0).
  { apply Z.bits_inj'. intros n Hn.
    rewrite Z.land_spec, Z.bits_0.
    destruct (Z.ltb_spec n 8) as [Hlt | Hge].
    - change 256 with (2 ^ 8).
      rewrite Z.mul_pow2_bits_low by lia. reflexivity.
    - assert (Hbit : Z.testbit b n = false).
      { destruct (Z.eq_dec b 0) as [-> | Hnz].
        - apply Z.bits_0.
        - apply Z.bits_above_log2; [lia |].
          assert (Z.log2 b < 8) by (apply Z.log2_lt_pow2; lia). lia. }
      rewrite Hbit. apply andb_false_r. }
  rewrite Hland. lia.
Qed.

Lemma int_from_bytes_big_4 (b0 b1 b2 b3 : byte) :
  int_from_bytes_big [b0; b1; b2; b3]
  = byte_val b0 * 16777216 + byte_val b1 * 65536
    + byte_val b2 * 256 + byte_val b3.
Proof.
  unfold int_from_bytes_big. cbn [fold_left].
  rewrite !lor_shiftl_byte by apply byte_val_range. lia.
Qed.

Lemma be_uint32_range (data : bytes) (o : Z) :
  0 <= be_uint32 data o < 4294967296.
Proof.
  unfold be_uint32, byte_at.
  pose proof (byte_val_range (nth (Z.to_nat o) data x00)).
  pose proof (byte_val_range (nth (Z.to_nat (o + 1)) data x00)).
  pose proof (byte_val_range (nth (Z.to_nat (o + 2)) data x00)).
  pose proof (byte_val_range (nth (Z.to_nat (o + 3)) data x00)).
  lia.
Qed.

Lemma firstn_20_nth {A} (d : A) (l : list A) :
  (20 <= length l)%nat ->
  firstn 20 l
  = [nth 0 l d; nth 1 l d; nth 2 l d; nth 3 l d; nth 4 l d;
     nth 5 l d; nth 6 l d; nth 7 l d; nth 8 l d; nth 9 l d;
     nth 10 l d; nth 11 l d; nth 12 l d; nth 13 l d; nth 14 l d;
     nth 15 l d; nth 16 l d; nth 17 l d; nth 18 l d; nth 19 l d].
Proof.
  intros H.
  do 20 (destruct l as [| ? l]; [simpl in H; lia |]).
  reflexivity.
Qed.

Lemma nth_skipn_add {A} (d : A) (l : list A) (n k : nat) :
  nth k (skipn n l) d = nth (n + k) l d.
Proof.
  revert l. induction n as [| n IH]; intros l; [reflexivity |].
  destruct l as [| x l]; [destruct k; reflexivity | apply IH].
Qed.

(** ** The record layout *)

Lemma struct_unpack_20 (c0 c1 c2 c3 c4 c5 c6 c7 c8 c9 c10 c11 c12 c13 c14
    c15 c16 c17 c18 c19 : byte) :
  let u a b c d :=
    byte_val a * 16777216 + byte_val b * 65536 + byte_val c * 256
    + byte_val d in
  struct_unpack_IIIff
    [c0; c1; c2; c3; c4; c5; c6; c7; c8; c9; c10; c11; c12; c13; c14; c15;
     c16; c17; c18; c19]
  = Ok (u c0 c1 c2 c3, u c4 c5 c6 c7, u c8 c9 c10 c11,
        Float.widen (Float.of_bits32 (u c12 c13 c14 c15)),
        Float.widen (Float.of_bits32 (u c16 c17 c18 c19))).
Proof.
  intros u. unfold struct_unpack_IIIff, Float.unpack_f.
  change (len _ =? 20) with true. cbv iota.
  change (slice _ 0 4) with [c0; c1; c2; c3].
  change (slice _ 4 8) with [c4; c5; c6; c7].
  change (slice _ 8 12) with [c8; c9; c10; c11].
  change (slice _ 12 16) with [c12; c13; c14; c15].
  change (slice _ 16 20) with [c16; c17; c18; c19].
  rewrite !int_from_bytes_big_4. reflexivity.
Qed.

Lemma byte_at_skipn (data : bytes) (i : Z) (k : nat) :
  0 <= i ->
  byte_val (nth k (skipn (Z.to_nat (i * chunk_size)) data) x00)
  = byte_at data (20 * i + Z.of_nat k).
Proof.
  intros Hi. unfold byte_at, chunk_size. rewrite nth_skipn_add.
  do 2 f_equal. lia.
Qed.

Lemma len_skipn {A} (l : list A) (n : nat) :
  len (skipn n l) = Z.max 0 (len l - Z.of_nat n).
Proof.
  unfold len. rewrite length_skipn. lia.
Qed.

(** A complete record always unpacks, into the big-endian fields. *)
Lemma struct_unpack_record (data : bytes) (i : Z) :
  0 <= i -> 20 * (i + 1) <= len data ->
  struct_unpack_IIIff (slice data (i * chunk_size) ((i + 1) * chunk_size))
  = Ok (be_uint32 data (20 * i), be_uint32 data (20 * i + 4),
        be_uint32 data (20 * i + 8),
        be_float32 data (20 * i + 12), be_float32 data (20 * i + 16)).
Proof.
  intros Hi Hlen. unfold slice.
  replace (Z.to_nat ((i + 1) * chunk_size - i * chunk_size)) with 20%nat
    by (unfold chunk_size; lia).
  rewrite (firstn_20_nth x00).
  2:{ pose proof (len_skipn data (Z.to_nat (i * chunk_size))) as Hs.
      unfold len, chunk_size in *. lia. }
  rewrite struct_unpack_20. cbv zeta.
  rewrite !byte_at_skipn by assumption.
  unfold be_float32, be_uint32. simpl Z.of_nat.
  repeat (f_equal; try lia).
Qed.

(** ** Calendar arithmetic *)

Lemma days_before_year_nonneg (y : Z) : 1 <= y -> 0 <= _days_before_year y.
Proof.
  intros Hy. unfold _days_before_year. cbv zeta.
  Z.div_mod_to_equations. lia.
Qed.

Lemma days_before_year_mono (y y' : Z) :
  y <= y' -> _days_before_year y <= _days_before_year y'.
Proof.
  intros Hy. unfold _days_before_year. cbv zeta.
  Z.div_mod_to_equations. lia.
Qed.

Lemma days_before_month_range (y m : Z) :
  1 <= m <= 12 -> 0 <= _days_before_month y m <= 335.
Proof.
  intros Hm. unfold _days_before_month.
  assert (Hcases : m = 1 \/ m = 2 \/ m = 3 \/ m = 4 \/ m = 5 \/ m = 6 \/
                   m = 7 \/ m = 8 \/ m = 9 \/ m = 10 \/ m = 11 \/ m = 12)
    by lia.
  destruct (_is_leap y); decompose [or] Hcases; subst m;
    unfold _DAYS_BEFORE_MONTH; simpl; lia.
Qed.

Lemma days_in_month_le_31 (y m : Z) : _days_in_month y m <= 31.
Proof.
  unfold _days_in_month.
  destruct ((m =? 2) && _is_leap y); [lia |].
  unfold _DAYS_IN_MONTH.
  generalize (Z.to_nat m). intros k.
  do 13 (destruct k as [| k]; [simpl; lia |]).
  simpl. destruct k; lia.
Qed.

Lemma valid_date_fields_inv (y m d : Z) :
  valid_date_fields y m d = true ->
  1 <= y <= 9999 /\ 1 <= m <= 12 /\ 1 <= d <= 31.
Proof.
  unfold valid_date_fields, MINYEAR, MAXYEAR. intros H.
  repeat (apply andb_prop in H; destruct H as [H ?]).
  pose proof (days_in_month_le_31 y m). lia.
Qed.

Lemma valid_time_fields_inv (hh mm ss : Z) :
  valid_time_fields hh mm ss = true ->
  0 <= hh <= 23 /\ 0 <= mm <= 59 /\ 0 <= ss <= 59.
Proof.
  unfold valid_time_fields. intros H.
  repeat (apply andb_prop in H; destruct H as [H ?]). lia.
Qed.

Lemma datetime_new_inv (y m d hh mm ss : Z) (t : datetime) :
  datetime_new y m d hh mm ss = Ok t ->
  valid_date_fields y m d = true /\ valid_time_fields hh mm ss = true /\
  t = ((_ymd2ord y m d - 1) * 86400 + hh * 3600 + mm * 60 + ss) * 1000000.
Proof.
  unfold datetime_new. intros H.
  destruct (negb (forallb fits_c_int [y; m; d; hh; mm; ss]));
    [discriminate |].
  destruct (valid_date_fields y m d) eqn:Hd;
    destruct (valid_time_fields hh mm ss) eqn:Ht; cbn in H;
    try discriminate.
  injection H as <-. auto.
Qed.

Lemma datetime_new_valid (y m d hh mm ss : Z) :
  valid_date_fields y m d = true -> valid_time_fields hh mm ss = true ->
  datetime_new y m d hh mm ss
  = Ok (((_ymd2ord y m d - 1) * 86400 + hh * 3600 + mm * 60 + ss) * 1000000).
Proof.
  intros Hd Ht. unfold datetime_new. rewrite Hd, Ht.
  apply valid_date_fields_inv in Hd as (Hy & Hm & Hday).
  apply valid_time_fields_inv in Ht as (Hh & Hmin & Hs).
  replace (forallb fits_c_int [y; m; d; hh; mm; ss]) with true;
    [reflexivity |].
  symmetry. cbn [forallb]. unfold fits_c_int.
  repeat (apply andb_true_intro; split); try reflexivity;
    apply Z.leb_le; lia.
Qed.

Lemma ymd2ord_range (y m d : Z) :
  valid_date_fields y m d = true ->
  1 <= _ymd2ord y m d <= _days_before_year y + 366.
Proof.
  intros H. apply valid_date_fields_inv in H as (Hy & Hm & Hd).
  unfold _ymd2ord.
  pose proof (days_before_year_nonneg y ltac:(lia)).
  pose proof (days_before_month_range y m Hm). lia.
Qed.

Lemma datetime_new_nonneg (y m d hh mm ss : Z) (t : datetime) :
  datetime_new y m d hh mm ss = Ok t -> 0 <= t.
Proof.
  intros H. apply datetime_new_inv in H as (Hd & Ht & ->).
  pose proof (ymd2ord_range y m d Hd).
  apply valid_time_fields_inv in Ht. lia.
Qed.

(** Before year 9999 every hour leaves room for a 32-bit offset. *)
Lemma offsets_fit_before_9999 (dt : date) (hour : Z) :
  valid_date_fields (year dt) (month dt) (day dt) = true ->
  0 <= hour <= 23 -> year dt <= 9998 ->
  offsets_fit dt hour = true.
Proof.
  intros Hd Hh Hy. unfold offsets_fit, hour_start.
  assert (Ht : valid_time_fields hour 0 0 = true).
  { unfold valid_time_fields.
    repeat (apply andb_true_intro; split); lia. }
  rewrite (datetime_new_valid _ _ _ _ _ _ Hd Ht).
  pose proof (ymd2ord_range _ _ _ Hd) as Hord.
  pose proof (days_before_year_mono (year dt) 9998 Hy) as Hmono.
  change (_days_before_year 9998) with 3651329 in Hmono.
  unfold timedelta_milliseconds, MAXORDINAL, us_per_day.
  apply Z.ltb_lt. lia.
Qed.

Lemma offsets_fit_inv (dt : date) (hour : Z) :
  offsets_fit dt hour = true ->
  exists base, hour_start dt hour = Ok base /\ 0 <= base /\
    base + timedelta_milliseconds 4294967295 < MAXORDINAL * us_per_day.
Proof.
  unfold offsets_fit. intros H.
  destruct (hour_start dt hour) as [base |] eqn:Hb; [| discriminate].
  exists base. split; [reflexivity |]. split.
  - apply datetime_new_nonneg in Hb. exact Hb.
  - apply Z.ltb_lt. exact H.
Qed.

(** ** The parser loop *)

Lemma In_range (n i : Z) : In i (range n) <-> 0 <= i < n.
Proof.
  unfold range. rewrite in_map_iff. split.
  - intros (k & <- & Hk). apply in_seq in Hk. lia.
  - intros H. exists (Z.to_nat i). split; [lia |]. apply in_seq. lia.
Qed.

Lemma len_range (n : Z) : 0 <= n -> len (range n) = n.
Proof.
  intros H. unfold len, range. rewrite length_map, length_seq. lia.
Qed.

Lemma nth_error_range (n i : Z) :
  0 <= i < n -> nth_error (range n) (Z.to_nat i) = Some i.
Proof.
  intros H. unfold range.
  rewrite nth_error_map, nth_error_seq.
  destruct (Nat.ltb_spec (Z.to_nat i) (Z.to_nat n)) as [_ | Hge]; [| lia].
  cbn. f_equal. lia.
Qed.

Lemma parse_step_spec (data : bytes) (base : datetime) (i : Z)
    (ticks : list Tick) :
  0 <= i -> 20 * (i + 1) <= len data ->
  _parse_bi5_step data base i ticks
  = match datetime_add base
            (timedelta_milliseconds (be_uint32 data (20 * i))) with
    | Ok _ => Ok (ticks ++ [record_tick data base i])
    | Raise e => Raise e
    end.
Proof.
  intros Hi Hlen. unfold _parse_bi5_step. cbv zeta.
  rewrite struct_unpack_record by assumption. cbn [bind].
  unfold datetime_add. cbv zeta.
  destruct (_ && _); reflexivity.
Qed.

Lemma datetime_add_cases (t : datetime) (d : timedelta) :
  datetime_add t d = Ok (t + d) \/ datetime_add t d = Raise OverflowError.
Proof.
  unfold datetime_add. cbv zeta. destruct (_ && _); auto.
Qed.

Lemma parse_loop_cases (data : bytes) (base : datetime) (idx : list Z) :
  (forall i, In i idx -> 0 <= i /\ 20 * (i + 1) <= len data) ->
  forall acc,
    for_each idx (_parse_bi5_step data base) acc
    = Ok (acc ++ map (record_tick data base) idx)
    \/ for_each idx (_parse_bi5_step data base) acc = Raise OverflowError.
Proof.
  induction idx as [| i idx IH]; intros Hidx acc.
  - left. cbn. rewrite app_nil_r. reflexivity.
  - cbn [for_each map].
    destruct (Hidx i (or_introl eq_refl)) as [Hi Hlen].
    rewrite parse_step_spec by assumption.
    destruct (datetime_add_cases base
                (timedelta_milliseconds (be_uint32 data (20 * i))))
      as [-> | ->]; cbn [bind]; [| right; reflexivity].
    destruct (IH (fun j Hj => Hidx j (or_intror Hj))
                 (acc ++ [record_tick data base i])) as [-> | ->];
      [left | right; reflexivity].
    rewrite <- app_assoc. reflexivity.
Qed.

Lemma parse_loop_fits (data : bytes) (base : datetime) (idx : list Z) :
  0 <= base ->
  base + timedelta_milliseconds 4294967295 < MAXORDINAL * us_per_day ->
  (forall i, In i idx -> 0 <= i /\ 20 * (i + 1) <= len data) ->
  forall acc,
    for_each idx (_parse_bi5_step data base) acc
    = Ok (acc ++ map (record_tick data base) idx).
Proof.
  intros Hbase Hmax.
  induction idx as [| i idx IH]; intros Hidx acc.
  - cbn. rewrite app_nil_r. reflexivity.
  - cbn [for_each map].
    destruct (Hidx i (or_introl eq_refl)) as [Hi Hlen].
    rewrite parse_step_spec by assumption.
    pose proof (be_uint32_range data (20 * i)) as Hu.
    unfold datetime_add, timedelta_milliseconds in *. cbv zeta.
    replace ((0 <=? _) && (_ <? _)) with true
      by (symmetry; apply andb_true_intro; split;
          [apply Z.leb_le | apply Z.ltb_lt]; lia).
    cbn [bind].
    rewrite (IH (fun j Hj => Hidx j (or_intror Hj))).
    rewrite <- app_assoc. reflexivity.
Qed.

Lemma range_records_in_buffer (data : bytes) (i : Z) :
  In i (range (len data / chunk_size)) ->
  0 <= i /\ 20 * (i + 1) <= len data.
Proof.
  intros H. apply In_range in H. unfold chunk_size in H.
  Z.div_mod_to_equations. lia.
Qed.

(** The two ways [_parse_bi5] can end when the hour start is valid. *)
Lemma parse_bi5_cases (data : bytes) (dt : date) (hour : Z)
    (base : datetime) :
  hour_start dt hour = Ok base ->
  _parse_bi5 data dt hour
  = Ok (map (record_tick data base) (range (len data / chunk_size)))
  \/ _parse_bi5 data dt hour = Raise OverflowError.
Proof.
  intros Hb. unfold _parse_bi5, hour_start in *.
  destruct (Z.eqb_spec (len data) 0) as [H0 | Hn0].
  - left. rewrite H0. reflexivity.
  - cbv zeta. rewrite Hb. cbn [bind].
    destruct (parse_loop_cases data base _ (range_records_in_buffer data) [])
      as [-> | ->]; cbn [bind]; auto.
Qed.

Lemma parse_bi5_fits (data : bytes) (dt : date) (hour : Z) :
  offsets_fit dt hour = true ->
  exists base, hour_start dt hour = Ok base /\
    _parse_bi5 data dt hour
    = Ok (map (record_tick data base) (range (len data / chunk_size))).
Proof.
  intros H. apply offsets_fit_inv in H as (base & Hb & Hb0 & Hmax).
  exists base. split; [exact Hb |].
  unfold _parse_bi5, hour_start in *.
  destruct (Z.eqb_spec (len data) 0) as [H0 | Hn0].
  - rewrite H0. reflexivity.
  - cbv zeta. rewrite Hb. cbn [bind].
    rewrite (parse_loop_fits data base _ Hb0 Hmax
               (range_records_in_buffer data)).
    reflexivity.
Qed.

(** ** Signs of binary64 results *)

Lemma shr_1_nonneg (mrs : shr_record) :
  0 <= shr_m mrs -> 0 <= shr_m (shr_1 mrs).
Proof.
  destruct mrs as [m r s]. cbn [shr_m]. intros Hm.
  destruct m as [| p | p]; [cbn; lia | | lia].
  destruct p; cbn; lia.
Qed.

Lemma iter_pos_shr_1_nonneg (p : positive) (mrs : shr_record) :
  0 <= shr_m mrs -> 0 <= shr_m (iter_pos shr_1 p mrs).
Proof.
  revert mrs. induction p as [p IH | p IH |]; intros mrs Hm; cbn [iter_pos].
  - apply IH, IH, shr_1_nonneg, Hm.
  - apply IH, IH, Hm.
  - apply shr_1_nonneg, Hm.
Qed.

Lemma shr_fexp_nonneg (prec emax m e : Z) (l : location) :
  0 <= m -> 0 <= shr_m (fst (shr_fexp prec emax m e l)).
Proof.
  intros Hm. unfold shr_fexp, shr.
  assert (H0 : 0 <= shr_m (shr_record_of_loc m l))
    by (destruct l as [| []]; exact Hm).
  destruct (fexp prec emax (Zdigits2 m + e) - e) as [| p | p]; cbn [fst].
  - exact H0.
  - apply iter_pos_shr_1_nonneg, H0.
  - exact H0.
Qed.

Lemma round_nearest_even_nonneg (m : Z) (l : location) :
  0 <= m -> 0 <= round_nearest_even m l.
Proof.
  intros Hm. unfold round_nearest_even.
  destruct l as [| []]; try destruct (Z.even m); lia.
Qed.

Lemma binary_round_aux_nonneg (prec emax m e : Z) (l : location) :
  0 <= m -> nonneg (binary_round_aux prec emax false m e l).
Proof.
  intros Hm. unfold binary_round_aux.
  pose proof (shr_fexp_nonneg prec emax m e l Hm) as H1.
  destruct (shr_fexp prec emax m e l) as [mrs' e']. cbn [fst] in H1.
  pose proof (shr_fexp_nonneg prec emax
                (round_nearest_even (shr_m mrs') (loc_of_shr_record mrs'))
                e' loc_Exact
                (round_nearest_even_nonneg _ _ H1)) as H2.
  destruct (shr_fexp prec emax _ e' loc_Exact) as [mrs'' e''].
  cbn [fst] in H2.
  destruct (shr_m mrs'') as [| p | p]; [reflexivity | | lia].
  destruct (e'' <=? emax - prec); reflexivity.
Qed.

Lemma of_int_nonneg (n : Z) : 0 <= n -> nonneg (Float.of_int n).
Proof.
  intros Hn. unfold Float.of_int, binary_normalize.
  destruct n as [| p | p]; [reflexivity | | lia].
  unfold binary_round.
  destruct (shl_align _ _ _) as [mz ez].
  apply binary_round_aux_nonneg. lia.
Qed.

Lemma div_nonneg (x : Float.float) (my : positive) (ey : Z) :
  nonneg x -> nonneg (Float.div x (S754_finite false my ey)).
Proof.
  intros Hx. unfold Float.div.
  destruct x as [s | s | | s mx ex].
  - destruct s; reflexivity.
  - destruct s; [discriminate Hx | reflexivity].
  - discriminate Hx.
  - destruct s; [discriminate Hx |].
    unfold SFdiv, SFdiv_core_binary. cbv zeta.
    set (m' := match _ - _ with Z0 => Zpos mx | Zpos _ => _ | Zneg _ => 0 end).
    assert (Hm' : 0 <= m').
    { subst m'. destruct (_ - _); [lia | | lia].
      apply Z.shiftl_nonneg. lia. }
    pose proof (Z.div_pos m' (Zpos my) Hm' ltac:(lia)) as Hq.
    unfold Z.div in Hq.
    destruct (Z.div_eucl m' (Zpos my)) as [q r].
    apply binary_round_aux_nonneg. exact Hq.
Qed.

(** A scaled price divided by 100000.0 is never negative. *)
Lemma price_nonneg (n : Z) :
  0 <= n -> nonneg (Float.div (Float.of_int n) (Float.of_int 100000)).
Proof.
  intros Hn.
  change (Float.of_int 100000) with (S754_finite false 6871947673600000 (-36)).
  apply div_nonneg, of_int_nonneg, Hn.
Qed.

(** ** The record parser *)

Lemma parse_bi5_invalid_hour (data : bytes) (dt : date) (hour : Z) (e : exn) :
  hour_start dt hour = Raise e -> len data <> 0 ->
  _parse_bi5 data dt hour = Raise e.
Proof.
  intros Hb Hn. unfold _parse_bi5, hour_start in *.
  destruct (Z.eqb_spec (len data) 0) as [H0 | _]; [contradiction |].
  cbv zeta. rewrite Hb. reflexivity.
Qed.

(** Whenever the parser returns, it returns the ticks of the complete
    records, in buffer order. *)
Lemma parse_bi5_ok_inv (data : bytes) (dt : date) (hour : Z)
    (ticks : DataFrame) :
  _parse_bi5 data dt hour = Ok ticks ->
  (len data = 0 /\ ticks = []) \/
  (exists base, hour_start dt hour = Ok base /\
     ticks = map (record_tick data base) (range (len data / chunk_size))).
Proof.
  intros H.
  destruct (Z.eq_dec (len data) 0) as [H0 | Hn0].
  - left. split; [exact H0 |].
    unfold _parse_bi5 in H. rewrite H0 in H.
    change (0 =? 0) with true in H. cbv iota in H.
    injection H as <-. reflexivity.
  - right. destruct (hour_start dt hour) as [base | e] eqn:Hb.
    + exists base. split; [reflexivity |].
      destruct (parse_bi5_cases data dt hour base Hb) as [Hok | Hraise];
        congruence.
    + rewrite (parse_bi5_invalid_hour data dt hour e Hb Hn0) in H.
      discriminate.
Qed.

Lemma len_map {A B} (f : A -> B) (l : list A) : len (map f l) = len l.
Proof. unfold len. rewrite length_map. reflexivity. Qed.

Lemma len_nonneg {A} (l : list A) : 0 <= len l.
Proof. unfold len. lia. Qed.

Lemma num_ticks_nonneg (data : bytes) : 0 <= len data / chunk_size.
Proof. apply Z.div_pos; [apply len_nonneg | unfold chunk_size; lia]. Qed.

Lemma parse_bi5_count (data : bytes) (dt : date) (hour : Z)
    (ticks : DataFrame) :
  _parse_bi5 data dt hour = Ok ticks -> len ticks = len data / 20.
Proof.
  intros H. apply parse_bi5_ok_inv in H as [[H0 ->] | (base & _ & ->)].
  - rewrite H0. reflexivity.
  - rewrite len_map, len_range by apply num_ticks_nonneg. reflexivity.
Qed.

Lemma byte_at_firstn (data : bytes) (k : nat) (j : Z) :
  0 <= j < Z.of_nat k -> byte_at (firstn k data) j = byte_at data j.
Proof.
  intros Hj. unfold byte_at. rewrite nth_firstn.
  destruct (Nat.ltb_spec (Z.to_nat j) k) as [_ | Hge]; [reflexivity | lia].
Qed.

Lemma record_tick_firstn (data : bytes) (base : datetime) (k : nat) (i : Z) :
  0 <= i -> 20 * (i + 1) <= Z.of_nat k ->
  record_tick (firstn k data) base i = record_tick data base i.
Proof.
  intros Hi Hk. unfold record_tick, be_float32, be_uint32. cbv zeta.
  rewrite !byte_at_firstn by lia. reflexivity.
Qed.

(** C3, as the code has it: whenever the parser returns, every complete
    20-byte record has been decoded big-endian as three unsigned 32-bit
    integers and two binary32 values, and the tick at position [i] is the
    one of record [i]: its timestamp is the hour start plus the offset in
    milliseconds, its ask and bid are the scaled integers divided by
    100000.0, and its volumes are the two binary32 values as they are.  The
    parser returns for every hour whose offsets fit the calendar; where
    they do not, one record past the end of the calendar leaves every
    record of the buffer without a tick. *)
Theorem parse_bi5_decodes_record (data : bytes) (dt : date) (hour : Z) :
  (offsets_fit dt hour = true ->
   exists ticks, _parse_bi5 data dt hour = Ok ticks) /\
  (forall (ticks : DataFrame) (i : Z),
     _parse_bi5 data dt hour = Ok ticks ->
     0 <= i -> 20 * (i + 1) <= len data ->
     exists base,
       hour_start dt hour = Ok base /\
       nth_error ticks (Z.to_nat i)
       = Some {| timestamp :=
                   base + timedelta_milliseconds (be_uint32 data (20 * i));
                 ask := Float.div (Float.of_int (be_uint32 data (20 * i + 4)))
                                  (Float.of_int 100000);
                 bid := Float.div (Float.of_int (be_uint32 data (20 * i + 8)))
                                  (Float.of_int 100000);
                 ask_volume := be_float32 data (20 * i + 12);
                 bid_volume := be_float32 data (20 * i + 16) |}).
Proof.
  split.
  - intros Hfit. destruct (parse_bi5_fits data dt hour Hfit) as (b & _ & H).
    eauto.
  - intros ticks i H Hi Hlen.
    apply parse_bi5_ok_inv in H as [[H0 _] | (base & Hb & ->)]; [lia |].
    exists base. split; [exact Hb |].
    rewrite nth_error_map, nth_error_range.
    + reflexivity.
    + unfold chunk_size. Z.div_mod_to_equations. lia.
Qed.

Lemma parse_bi5_decodes_record_witness :
  exists base,
    hour_start Sample.jan15 3 = Ok base /\
    nth_error
      [Sample.tick_a3] (Z.to_nat 0)
    = Some {| timestamp :=
                base + timedelta_milliseconds
                         (be_uint32 Sample.record_a (20 * 0));
              ask := Float.div
                       (Float.of_int (be_uint32 Sample.record_a (20 * 0 + 4)))
                       (Float.of_int 100000);
              bid := Float.div
                       (Float.of_int (be_uint32 Sample.record_a (20 * 0 + 8)))
                       (Float.of_int 100000);
              ask_volume := be_float32 Sample.record_a (20 * 0 + 12);
              bid_volume := be_float32 Sample.record_a (20 * 0 + 16) |}.
Proof.
  apply (proj2 (parse_bi5_decodes_record Sample.record_a Sample.jan15 3)).
  - vm_compute. reflexivity.
  - lia.
  - vm_compute. discriminate.
Defined.

Lemma be_uint32_firstn (data : bytes) (k : nat) (o : Z) :
  0 <= o -> o + 4 <= Z.of_nat k ->
  be_uint32 (firstn k data) o = be_uint32 data o.
Proof.
  intros Ho Hk. unfold be_uint32. rewrite !byte_at_firstn by lia.
  reflexivity.
Qed.

Lemma parse_loop_firstn (data : bytes) (base : datetime) (k : nat)
    (idx : list Z) :
  (forall i, In i idx ->
             0 <= i /\ 20 * (i + 1) <= Z.of_nat k /\ Z.of_nat k <= len data) ->
  forall acc,
    for_each idx (_parse_bi5_step (firstn k data) base) acc
    = for_each idx (_parse_bi5_step data base) acc.
Proof.
  induction idx as [| i idx IH]; intros Hidx acc; [reflexivity |].
  cbn [for_each].
  destruct (Hidx i (or_introl eq_refl)) as (Hi & Hk & Hlen).
  assert (Hcut : len (firstn k data) = Z.of_nat k)
    by (unfold len in *; rewrite length_firstn; lia).
  rewrite !parse_step_spec by lia.
  rewrite be_uint32_firstn, record_tick_firstn by lia.
  destruct (datetime_add base _); cbn [bind]; [| reflexivity].
  apply IH. intros j Hj. apply Hidx. right. exact Hj.
Qed.

(** The bytes after the last complete record do not matter. *)
Lemma parse_bi5_trailing (data : bytes) (dt : date) (hour : Z)
    (base : datetime) :
  hour_start dt hour = Ok base ->
  _parse_bi5 (firstn (Z.to_nat (20 * (len data / 20))) data) dt hour
  = _parse_bi5 data dt hour.
Proof.
  intros Hb. set (k := Z.to_nat (20 * (len data / 20))).
  pose proof (len_nonneg data) as Hlen.
  assert (Hk : Z.of_nat k = 20 * (len data / 20))
    by (subst k; Z.div_mod_to_equations; lia).
  assert (Hcut : len (firstn k data) = 20 * (len data / 20)).
  { unfold len in *. rewrite length_firstn. Z.div_mod_to_equations. lia. }
  assert (Hnum : len (firstn k data) / chunk_size = len data / chunk_size).
  { rewrite Hcut. unfold chunk_size. Z.div_mod_to_equations. lia. }
  unfold _parse_bi5, hour_start in *. cbv zeta. rewrite Hb. cbn [bind].
  rewrite Hnum, parse_loop_firstn.
  2:{ intros i Hi. apply In_range in Hi. unfold chunk_size in Hi.
      Z.div_mod_to_equations. lia. }
  destruct (Z.eqb_spec (len (firstn k data)) 0) as [H0 | Hn0];
    destruct (Z.eqb_spec (len data) 0) as [H0' | Hn0'];
    try reflexivity.
  - assert (Hz : len data / chunk_size = 0)
      by (unfold chunk_size; Z.div_mod_to_equations; lia).
    rewrite Hz. reflexivity.
  - rewrite H0' in Hcut. cbn in Hcut. contradiction.
Qed.

(** C3 as stated fails: on 9999-12-31 at hour 23 the buffer holds two
    complete records; the timestamp of the first lies within the calendar,
    that of the second does not, and the parser raises, so that the first
    record yields no tick either. *)
Lemma parse_bi5_record_without_tick_counterexample :
  hour_start Sample.last_day 23 = Ok 315537894000000000 /\
  len (Sample.record_a ++ Sample.record_late) = 40 /\
  315537894000000000
  + timedelta_milliseconds
      (be_uint32 (Sample.record_a ++ Sample.record_late) (20 * 0))
  < MAXORDINAL * us_per_day /\
  _parse_bi5 (Sample.record_a ++ Sample.record_late) Sample.last_day 23
  = Raise OverflowError /\
  ~ (exists ticks,
       _parse_bi5 (Sample.record_a ++ Sample.record_late) Sample.last_day 23
       = Ok ticks /\
       nth_error ticks (Z.to_nat 0)
       = Some (record_tick (Sample.record_a ++ Sample.record_late)
                 315537894000000000 0)).
Proof.
  assert (H : _parse_bi5 (Sample.record_a ++ Sample.record_late)
                Sample.last_day 23
              = Raise OverflowError) by (vm_compute; reflexivity).
  split; [vm_compute; reflexivity |].
  split; [reflexivity |].
  split; [vm_compute; reflexivity |].
  split; [exact H |].
  intros (ticks & Hok & _). rewrite H in Hok. discriminate.
Qed.

(** C4, as the code has it: the empty buffer gives the empty sequence and
    is never an error; whenever the parser returns, it returns exactly
    floor(len/20) ticks; for a valid hour its outcome on a buffer is its
    outcome on the leading complete 20-byte chunks alone, so that trailing
    bytes are ignored; and it returns for every hour whose offsets fit the
    calendar. *)
Theorem parse_bi5_leading_records (data : bytes) (dt : date) (hour : Z) :
  _parse_bi5 [] dt hour = Ok [] /\
  (forall ticks, _parse_bi5 data dt hour = Ok ticks ->
                 len ticks = len data / 20) /\
  (forall base,
     hour_start dt hour = Ok base ->
     _parse_bi5 (firstn (Z.to_nat (20 * (len data / 20))) data) dt hour
     = _parse_bi5 data dt hour) /\
  (offsets_fit dt hour = true ->
   exists ticks,
     _parse_bi5 data dt hour = Ok ticks /\
     len ticks = len data / 20 /\
     _parse_bi5 (firstn (Z.to_nat (20 * (len data / 20))) data) dt hour
     = Ok ticks).
Proof.
  split; [reflexivity |]. split; [apply parse_bi5_count |].
  split; [apply parse_bi5_trailing |].
  intros Hfit.
  destruct (parse_bi5_fits data dt hour Hfit) as (base & Hb & H).
  eexists. split; [exact H |]. split; [apply (parse_bi5_count _ _ _ _ H) |].
  rewrite (parse_bi5_trailing data dt hour base Hb). exact H.
Qed.

Lemma parse_bi5_leading_records_witness :
  exists ticks,
    _parse_bi5 (Sample.record_a ++ Sample.mkbytes [1; 2; 3]) Sample.jan15 3
    = Ok ticks /\
    len ticks = len (Sample.record_a ++ Sample.mkbytes [1; 2; 3]) / 20 /\
    _parse_bi5
      (firstn (Z.to_nat
                 (20 * (len (Sample.record_a ++ Sample.mkbytes [1; 2; 3])
                        / 20)))
              (Sample.record_a ++ Sample.mkbytes [1; 2; 3]))
      Sample.jan15 3
    = Ok ticks.
Proof.
  apply (proj2 (proj2 (proj2 (parse_bi5_leading_records
                                (Sample.record_a ++ Sample.mkbytes [1; 2; 3])
                                Sample.jan15 3)))).
  vm_compute. reflexivity.
Defined.

(** C4 as stated fails: on 9999-12-31 at hour 23 a buffer of 23 bytes, one
    complete record and three more bytes, does not give floor(23/20) = 1
    tick: the parser raises. *)
Lemma parse_bi5_count_counterexample :
  hour_start Sample.last_day 23 = Ok 315537894000000000 /\
  len (Sample.record_late ++ Sample.mkbytes [1; 2; 3]) = 23 /\
  _parse_bi5 (Sample.record_late ++ Sample.mkbytes [1; 2; 3])
    Sample.last_day 23
  = Raise OverflowError /\
  ~ (exists ticks,
       _parse_bi5 (Sample.record_late ++ Sample.mkbytes [1; 2; 3])
         Sample.last_day 23
       = Ok ticks /\
       len ticks = len (Sample.record_late ++ Sample.mkbytes [1; 2; 3]) / 20).
Proof.
  assert (H : _parse_bi5 (Sample.record_late ++ Sample.mkbytes [1; 2; 3])
                Sample.last_day 23
              = Raise OverflowError) by (vm_compute; reflexivity).
  split; [vm_compute; reflexivity |].
  split; [reflexivity |].
  split; [exact H |].
  intros (ticks & Hok & _). rewrite H in Hok. discriminate.
Qed.

(** C9, as the code has it: for every hour whose start leaves room for a
    32-bit millisecond offset below the last instant of year 9999, which
    every hour of every date before year 9999 does, the parser returns
    floor(len/20) ticks for every buffer; and for every valid date and hour,
    unpacking never fails, so that the only exception the parser can raise
    is the overflow of the timestamp addition. *)
Theorem parse_bi5_total_in_range (data : bytes) (dt : date) (hour : Z) :
  (offsets_fit dt hour = true ->
   exists ticks,
     _parse_bi5 data dt hour = Ok ticks /\ len ticks = len data / 20) /\
  (valid_date_fields (year dt) (month dt) (day dt) = true ->
   0 <= hour <= 23 -> year dt <= 9998 -> offsets_fit dt hour = true) /\
  (forall base e,
     hour_start dt hour = Ok base ->
     _parse_bi5 data dt hour = Raise e -> e = OverflowError).
Proof.
  split; [| split].
  - intros Hfit.
    destruct (parse_bi5_fits data dt hour Hfit) as (base & _ & H).
    eexists. split; [exact H |]. apply (parse_bi5_count _ _ _ _ H).
  - apply offsets_fit_before_9999.
  - intros base e Hb H.
    destruct (parse_bi5_cases data dt hour base Hb); congruence.
Qed.

Lemma parse_bi5_total_in_range_witness :
  exists ticks,
    _parse_bi5 (Sample.payload 3 Sample.record_late) Sample.jan15 23
    = Ok ticks /\
    len ticks = len (Sample.payload 3 Sample.record_late) / 20.
Proof.
  apply (proj1 (parse_bi5_total_in_range
                  (Sample.payload 3 Sample.record_late) Sample.jan15 23)).
  vm_compute. reflexivity.
Defined.

(** C9 as stated fails: 9999-12-31 23:00 is a valid hour, the buffer is one
    complete record, and the parser raises instead of returning a tick. *)
Lemma parse_bi5_overflow_counterexample :
  hour_start Sample.last_day 23 = Ok 315537894000000000 /\
  len Sample.record_late = 20 /\
  _parse_bi5 Sample.record_late Sample.last_day 23 = Raise OverflowError /\
  ~ (exists ticks,
       _parse_bi5 Sample.record_late Sample.last_day 23 = Ok ticks /\
       len ticks = len Sample.record_late / 20).
Proof.
  assert (H : _parse_bi5 Sample.record_late Sample.last_day 23
              = Raise OverflowError) by (vm_compute; reflexivity).
  repeat split; try (vm_compute; reflexivity).
  intros (ticks & Hok & _). rewrite H in Hok. discriminate.
Qed.

(** C10: every tick the parser produces has a timestamp from the hour start
    up to, but not including, the hour start plus 2^32 milliseconds, and
    ask and bid prices that are not negative. *)
Theorem parse_bi5_tick_bounds (data : bytes) (dt : date) (hour : Z)
    (ticks : DataFrame) (t : Tick) :
  _parse_bi5 data dt hour = Ok ticks -> In t ticks ->
  exists base,
    hour_start dt hour = Ok base /\
    base <= timestamp t < base + timedelta_milliseconds (2 ^ 32) /\
    nonneg (ask t) /\ nonneg (bid t).
Proof.
  intros H Ht.
  apply parse_bi5_ok_inv in H as [[_ ->] | (base & Hb & ->)];
    [destruct Ht |].
  exists base. split; [exact Hb |].
  apply in_map_iff in Ht as (i & <- & _).
  unfold record_tick. cbv zeta. cbn [timestamp ask bid].
  pose proof (be_uint32_range data (20 * i)).
  pose proof (be_uint32_range data (20 * i + 4)).
  pose proof (be_uint32_range data (20 * i + 8)).
  unfold timedelta_milliseconds. change (2 ^ 32) with 4294967296.
  repeat split; try lia; apply price_nonneg; lia.
Qed.

Lemma parse_bi5_tick_bounds_witness :
  exists base,
    hour_start Sample.jan15 3 = Ok base /\
    base <= timestamp Sample.tick_a3
      < base + timedelta_milliseconds (2 ^ 32) /\
    nonneg (ask Sample.tick_a3) /\ nonneg (bid Sample.tick_a3).
Proof.
  apply (parse_bi5_tick_bounds Sample.record_a Sample.jan15 3
           [Sample.tick_a3] Sample.tick_a3).
  - vm_compute. reflexivity.
  - left. reflexivity.
Defined.

(** ** The resource locator *)

Lemma format_0d_two_digits (n : Z) :
  0 <= n <= 99 -> format_0d 2 n = two_digits n.
Proof.
  intros Hn.
  assert (Hall : forallb (fun k => String.eqb (format_0d 2 k) (two_digits k))
                         (range 100) = true) by (vm_compute; reflexivity).
  rewrite forallb_forall in Hall.
  apply String.eqb_eq, Hall, In_range. lia.
Qed.

Lemma format_0d_four_digits (n : Z) :
  0 <= n <= 9999 -> format_0d 4 n = four_digits n.
Proof.
  intros Hn.
  assert (Hall : forallb (fun k => String.eqb (format_0d 4 k) (four_digits k))
                         (range 10000) = true) by (vm_compute; reflexivity).
  rewrite forallb_forall in Hall.
  apply String.eqb_eq, Hall, In_range. lia.
Qed.

(** C5: the locator is a function of the instrument code, the date and the
    hour alone, and its value is
    <base>/<INSTRUMENT>/<YYYY>/<MM0>/<DD>/<HH>h_ticks.bi5 with the year on
    four digits, the month minus one, the day and the hour on two digits
    each; for EURUSD on 2024-01-15 at hour 3 the fields are 00, 15 and 03. *)
Theorem get_tick_url_path (self : DukascopyDownloader) (dt : date) (hour : Z) :
  (1 <= year dt <= 9999 -> 1 <= month dt <= 12 -> 1 <= day dt <= 31 ->
   0 <= hour <= 23 ->
   _get_tick_url self dt hour
   = (BASE_URL ++ "/" ++ pair self ++ "/" ++ four_digits (year dt) ++ "/"
      ++ two_digits (month dt - 1) ++ "/" ++ two_digits (day dt) ++ "/"
      ++ two_digits hour ++ "h_ticks.bi5")%string) /\
  (forall out : string,
     _get_tick_url (mk_downloader "EURUSD" out) (mk_date 2024 1 15) 3
     = (BASE_URL ++ "/EURUSD/2024/00/15/03h_ticks.bi5")%string).
Proof.
  split; [| reflexivity].
  intros Hy Hm Hd Hh. unfold _get_tick_url. cbv zeta.
  rewrite format_0d_four_digits by lia.
  rewrite !format_0d_two_digits by lia.
  reflexivity.
Qed.

Lemma get_tick_url_path_witness :
  _get_tick_url Sample.eurusd (mk_date 2024 12 31) 23
  = (BASE_URL ++ "/EURUSD/2024/11/31/23h_ticks.bi5")%string.
Proof.
  apply (proj1 (get_tick_url_path Sample.eurusd (mk_date 2024 12 31) 23));
    cbn; lia.
Defined.

(** ** The day orchestrator *)

Lemma download_file_total (env : Env) (url : string) :
  _download_file env url
  = Ok match requests_get env url 30 with
       | Ok response =>
           if status_code response =? 200 then Some (content response)
           else None
       | Raise _ => None
       end.
Proof.
  unfold _download_file, try_except.
  destruct (requests_get env url 30) as [response | e]; cbn [bind];
    [destruct (status_code response =? 200) |]; reflexivity.
Qed.

Lemma download_day_step_spec (env : Env) (self : DukascopyDownloader)
    (dt : date) (hour : Z) (day_ticks : list DataFrame) :
  download_day_step env self dt hour day_ticks
  = Ok (if nonempty (hour_records env self dt hour)
        then day_ticks ++ [hour_records env self dt hour]
        else day_ticks).
Proof.
  unfold download_day_step, hour_records. cbv zeta.
  rewrite download_file_total. cbn [bind].
  destruct (requests_get env _ 30) as [response | e]; [| reflexivity].
  destruct (status_code response =? 200); [| reflexivity].
  unfold _decompress_bi5, try_except.
  destruct (lzma_decompress env (content response)) as [raw | e];
    cbn [bind]; [| reflexivity].
  destruct (_parse_bi5 raw dt hour) as [df | e]; cbn [bind];
    [| reflexivity].
  unfold nonempty. destruct (negb (empty df)); reflexivity.
Qed.

Lemma download_day_loop (env : Env) (self : DukascopyDownloader) (dt : date)
    (hours : list Z) :
  forall day_ticks,
    for_each hours (download_day_step env self dt) day_ticks
    = Ok (day_ticks
          ++ filter nonempty (map (hour_records env self dt) hours)).
Proof.
  induction hours as [| h hours IH]; intros day_ticks;
    cbn [for_each map filter].
  - rewrite app_nil_r. reflexivity.
  - rewrite download_day_step_spec. cbn [bind]. rewrite IH.
    destruct (nonempty (hour_records env self dt h)); [| reflexivity].
    rewrite <- app_assoc. reflexivity.
Qed.

(** [download_day] never raises, and returns the records of the day. *)
Lemma download_day_spec (env : Env) (self : DukascopyDownloader) (dt : date) :
  download_day env self dt = Ok (day_records env self dt).
Proof.
  unfold download_day, day_records. rewrite download_day_loop.
  cbn [bind app].
  destruct (filter nonempty _) as [| df dfs]; reflexivity.
Qed.

Lemma concat_filter_nonempty (frames : list DataFrame) :
  pd_concat (filter nonempty frames) = pd_concat frames.
Proof.
  unfold pd_concat.
  induction frames as [| df frames IH]; [reflexivity |].
  cbn [filter]. destruct df as [| t df]; cbn [nonempty empty negb].
  - exact IH.
  - cbn [concat]. rewrite IH. reflexivity.
Qed.

(** C2: [download_day] goes through the hours 0 to 23 in increasing order
    and returns the concatenation, in that order, of the non-empty record
    sequences of the hours; an hour whose fetch, decompression or parse
    fails has no records and leaves the other hours as they are.  When only
    hour 2 has ticks (100) and hour 5 has ticks (50), the day has 150
    records, those of hour 2 before those of hour 5. *)
Theorem download_day_concat_hours (env : Env) (self : DukascopyDownloader)
    (dt : date) :
  range 24 = [0; 1; 2; 3; 4; 5; 6; 7; 8; 9; 10; 11; 12; 13; 14; 15; 16; 17;
              18; 19; 20; 21; 22; 23] /\
  download_day env self dt
  = Ok (pd_concat
          (filter nonempty (map (hour_records env self dt) (range 24)))) /\
  (forall hour,
     (forall e, requests_get env (_get_tick_url self dt hour) 30 = Raise e ->
                hour_records env self dt hour = []) /\
     (forall r, requests_get env (_get_tick_url self dt hour) 30 = Ok r ->
                status_code r <> 200 ->
                hour_records env self dt hour = []) /\
     (forall r e, requests_get env (_get_tick_url self dt hour) 30 = Ok r ->
                  lzma_decompress env (content r) = Raise e ->
                  hour_records env self dt hour = []) /\
     (forall r raw e,
        requests_get env (_get_tick_url self dt hour) 30 = Ok r ->
        lzma_decompress env (content r) = Ok raw ->
        _parse_bi5 raw dt hour = Raise e ->
        hour_records env self dt hour = [])) /\
  (len (hour_records env self dt 2) = 100 ->
   len (hour_records env self dt 5) = 50 ->
   (forall hour, 0 <= hour < 24 -> hour <> 2 -> hour <> 5 ->
                 hour_records env self dt hour = []) ->
   exists df,
     download_day env self dt = Ok df /\
     df = hour_records env self dt 2 ++ hour_records env self dt 5 /\
     len df = 150).
Proof.
  split; [reflexivity |]. split; [apply download_day_spec |]. split.
  - intros hour. unfold hour_records. repeat split.
    + intros e ->. reflexivity.
    + intros r -> Hs. destruct (Z.eqb_spec (status_code r) 200);
        [contradiction | reflexivity].
    + intros r e -> ->. destruct (status_code r =? 200); reflexivity.
    + intros r raw e -> -> ->. destruct (status_code r =? 200); reflexivity.
  - intros H2 H5 Hrest.
    exists (day_records env self dt). split; [apply download_day_spec |].
    assert (Hday : day_records env self dt
                   = hour_records env self dt 2 ++ hour_records env self dt 5).
    { unfold day_records. rewrite concat_filter_nonempty.
      change (range 24)
        with [0; 1; 2; 3; 4; 5; 6; 7; 8; 9; 10; 11; 12; 13; 14; 15; 16; 17;
              18; 19; 20; 21; 22; 23].
      unfold pd_concat. cbn [map concat].
      rewrite !(Hrest 0), !(Hrest 1), !(Hrest 3), !(Hrest 4), !(Hrest 6),
        !(Hrest 7), !(Hrest 8), !(Hrest 9), !(Hrest 10), !(Hrest 11),
        !(Hrest 12), !(Hrest 13), !(Hrest 14), !(Hrest 15), !(Hrest 16),
        !(Hrest 17), !(Hrest 18), !(Hrest 19), !(Hrest 20), !(Hrest 21),
        !(Hrest 22), !(Hrest 23) by lia.
      cbn [app]. rewrite app_nil_r. reflexivity. }
    split; [exact Hday |].
    rewrite Hday. unfold len in *. rewrite length_app. lia.
Qed.

Lemma download_day_concat_hours_witness :
  exists df,
    download_day Sample.env_feed Sample.eurusd Sample.jan15 = Ok df /\
    df = hour_records Sample.env_feed Sample.eurusd Sample.jan15 2
         ++ hour_records Sample.env_feed Sample.eurusd Sample.jan15 5 /\
    len df = 150.
Proof.
  apply (proj2 (proj2 (proj2 (download_day_concat_hours
                                Sample.env_feed Sample.eurusd Sample.jan15)))).
  - vm_compute. reflexivity.
  - vm_compute. reflexivity.
  - intros hour Hh H2 H5.
    assert (Hcases : hour = 0 \/ hour = 1 \/ hour = 3 \/ hour = 4 \/
                     hour = 6 \/ hour = 7 \/ hour = 8 \/ hour = 9 \/
                     hour = 10 \/ hour = 11 \/ hour = 12 \/ hour = 13 \/
                     hour = 14 \/ hour = 15 \/ hour = 16 \/ hour = 17 \/
                     hour = 18 \/ hour = 19 \/ hour = 20 \/ hour = 21 \/
                     hour = 22 \/ hour = 23) by lia.
    decompose [or] Hcases; subst hour; vm_compute; reflexivity.
Defined.

(** ** Sorting routines meeting the contract *)

Section InsertionSort.

Variable before : Tick -> Tick -> bool.
Hypothesis before_le : forall t u, before t u = true -> ts_le t u.
Hypothesis not_before_le : forall t u, before t u = false -> ts_le u t.

Lemma insert_by_perm (t : Tick) (l : DataFrame) :
  Permutation (insert_by before t l) (t :: l).
Proof.
  induction l as [| u l IH]; cbn [insert_by]; [reflexivity |].
  destruct (before t u); [reflexivity |].
  rewrite IH. apply perm_swap.
Qed.

Lemma sort_by_perm (df : DataFrame) : Permutation (sort_by before df) df.
Proof.
  unfold sort_by.
  induction df as [| t df IH]; cbn [fold_right]; [reflexivity |].
  rewrite insert_by_perm. apply perm_skip, IH.
Qed.

Lemma insert_by_hd (t u : Tick) (l : DataFrame) :
  ts_le u t -> HdRel ts_le u l -> HdRel ts_le u (insert_by before t l).
Proof.
  intros Hut Hl. destruct l as [| v l]; cbn [insert_by].
  - constructor. exact Hut.
  - destruct (before t v); constructor; [exact Hut |].
    inversion Hl; assumption.
Qed.

Lemma insert_by_sorted (t : Tick) (l : DataFrame) :
  Sorted ts_le l -> Sorted ts_le (insert_by before t l).
Proof.
  induction 1 as [| u l Hl IH Hhd]; cbn [insert_by].
  - repeat constructor.
  - destruct (before t u) eqn:Hb.
    + constructor; [constructor; assumption |].
      constructor. apply before_le, Hb.
    + constructor; [exact IH |].
      apply insert_by_hd; [apply not_before_le, Hb | exact Hhd].
Qed.

Lemma sort_by_sorted (df : DataFrame) : Sorted ts_le (sort_by before df).
Proof.
  unfold sort_by.
  induction df as [| t df IH]; cbn [fold_right]; [constructor |].
  apply insert_by_sorted, IH.
Qed.

Lemma sort_by_contract : sort_contract (sort_by before).
Proof. split; [apply sort_by_perm | apply sort_by_sorted]. Qed.

End InsertionSort.

Lemma sort_keeping_ties_contract : sort_contract sort_keeping_ties.
Proof.
  apply sort_by_contract; unfold ts_le; intros t u H.
  - apply Z.leb_le, H.
  - apply Z.leb_gt in H. lia.
Qed.

Lemma sort_reversing_ties_contract : sort_contract sort_reversing_ties.
Proof.
  apply sort_by_contract; unfold ts_le; intros t u H.
  - apply Z.ltb_lt in H. lia.
  - apply Z.ltb_ge, H.
Qed.

(** ** The range orchestrator *)

Lemma download_range_step_spec (env : Env) (self : DukascopyDownloader)
    (dt : date) (all_ticks : list DataFrame) :
  download_range_step env self dt all_ticks
  = Ok (if nonempty (day_records env self dt)
        then all_ticks ++ [day_records env self dt]
        else all_ticks).
Proof.
  unfold download_range_step. rewrite download_day_spec. cbn [bind].
  unfold nonempty. destruct (negb (empty _)); reflexivity.
Qed.

Lemma download_range_loop (env : Env) (self : DukascopyDownloader)
    (dates : list date) :
  forall all_ticks,
    for_each dates (download_range_step env self) all_ticks
    = Ok (all_ticks ++ filter nonempty (map (day_records env self) dates)).
Proof.
  induction dates as [| dt dates IH]; intros all_ticks;
    cbn [for_each map filter].
  - rewrite app_nil_r. reflexivity.
  - rewrite download_range_step_spec. cbn [bind]. rewrite IH.
    destruct (nonempty (day_records env self dt)); [| reflexivity].
    rewrite <- app_assoc. reflexivity.
Qed.

(** [download_range] with its loops resolved. *)
Lemma download_range_spec (env : Env) (self : DukascopyDownloader)
    (start_date end_date : string) (save : bool) (fs : storage) :
  download_range env self start_date end_date save fs
  = match validate_date_range env start_date end_date with
    | Raise e => (Raise e, fs)
    | Ok (start_dt, end_dt) =>
        match generate_date_range env start_dt end_dt with
        | Raise e => (Raise e, fs)
        | Ok dates =>
            let all_ticks :=
              filter nonempty (map (day_records env self) dates) in
            if empty_list all_ticks then (Ok [], fs)
            else
              let df := sort_values_timestamp env (pd_concat all_ticks) in
              (Ok df,
               if save then to_csv df (csv_path self start_date end_date) fs
               else fs)
        end
    end.
Proof.
  unfold download_range.
  destruct (validate_date_range env start_date end_date) as [[s e] | x];
    [| reflexivity].
  destruct (generate_date_range env s e) as [dates | x]; [| reflexivity].
  rewrite download_range_loop. cbn [app]. cbv zeta.
  destruct (empty_list _); [reflexivity |].
  destruct save; reflexivity.
Qed.

Lemma day_records_of_results (env : Env) (self : DukascopyDownloader)
    (dates : list date) (days : list DataFrame) :
  Forall2 (fun dt df => download_day env self dt = Ok df) dates days ->
  map (day_records env self) dates = days.
Proof.
  induction 1 as [| dt df dates days Hd _ IH]; [reflexivity |].
  cbn [map]. rewrite download_day_spec in Hd. congruence.
Qed.

Lemma filter_nonempty_concat_nil (frames : list DataFrame) :
  pd_concat (filter nonempty frames) = [] -> filter nonempty frames = [].
Proof.
  induction frames as [| df frames IH]; [reflexivity |].
  cbn [filter]. destruct df as [| t df]; cbn [nonempty empty negb].
  - exact IH.
  - unfold pd_concat. cbn. discriminate.
Qed.

Lemma sorted_frame_nonempty (sort : DataFrame -> DataFrame)
    (frames : list DataFrame) :
  sort_contract sort ->
  empty_list (filter nonempty frames) = false ->
  nonempty (sort (pd_concat (filter nonempty frames))) = true.
Proof.
  intros [Hperm _] Hne.
  destruct (sort (pd_concat (filter nonempty frames))) as [| t df] eqn:Hs;
    [| reflexivity].
  pose proof (Hperm (pd_concat (filter nonempty frames))) as Hp.
  rewrite Hs in Hp. apply Permutation_nil in Hp.
  apply filter_nonempty_concat_nil in Hp. rewrite Hp in Hne. discriminate.
Qed.

(** C1, as the code has it: the dataset [download_range] returns is a
    rearrangement of the concatenation of the non-empty day record sets, in
    non-decreasing order of timestamp.  The order among ticks of equal
    timestamp is the one the default sort of pandas produces, which the
    code does not fix. *)
Theorem download_range_sorted_permutation (env : Env)
    (self : DukascopyDownloader) (start_date end_date : string) (save : bool)
    (fs : storage) (start_dt end_dt : date) (dates : list date)
    (days : list DataFrame) :
  sort_contract (sort_values_timestamp env) ->
  validate_date_range env start_date end_date = Ok (start_dt, end_dt) ->
  generate_date_range env start_dt end_dt = Ok dates ->
  Forall2 (fun dt df => download_day env self dt = Ok df) dates days ->
  exists out,
    fst (download_range env self start_date end_date save fs) = Ok out /\
    Sorted ts_le out /\
    Permutation out (pd_concat (filter nonempty days)).
Proof.
  intros [Hperm Hsorted] Hv Hg Hdays.
  rewrite download_range_spec, Hv, Hg. cbv zeta.
  rewrite (day_records_of_results env self dates days Hdays).
  destruct (empty_list (filter nonempty days)) eqn:Hne; cbn [fst].
  - exists []. split; [reflexivity |]. split; [constructor |].
    destruct (filter nonempty days); [reflexivity | discriminate].
  - eexists. split; [reflexivity |]. split; [apply Hsorted | apply Hperm].
Qed.

Lemma download_range_sorted_permutation_witness :
  exists out,
    fst (download_range Sample.env_feed Sample.eurusd
           "2024-01-15" "2024-01-16" true [])
    = Ok out /\
    Sorted ts_le out /\
    Permutation out
      (pd_concat
         (filter nonempty
            [day_records Sample.env_feed Sample.eurusd Sample.jan15;
             day_records Sample.env_feed Sample.eurusd Sample.jan16])).
Proof.
  apply (download_range_sorted_permutation Sample.env_feed Sample.eurusd
           "2024-01-15" "2024-01-16" true [] Sample.jan15 Sample.jan16
           [Sample.jan15; Sample.jan16]).
  - apply sort_keeping_ties_contract.
  - reflexivity.
  - reflexivity.
  - repeat constructor; apply download_day_spec.
Defined.

(** C1 as stated fails: one hundred ticks of one timestamp, each with its
    own ask price, arrive in one hour; the frame [download_range] returns,
    sorted as [sort_values] sorts with its default [kind], has the hundred
    rows in timestamp order but not in the order in which they arrived. *)
Lemma download_range_stable_counterexample :
  download_day Sample.env_ties Sample.eurusd Sample.jan15
  = Ok (map Sample.tick_numbered (range 100)) /\
  download_day Sample.env_ties Sample.eurusd Sample.jan16 = Ok [] /\
  (forall i, timestamp (Sample.tick_numbered i) = 63840873601000000) /\
  exists out,
    fst (download_range Sample.env_ties Sample.eurusd
           "2024-01-15" "2024-01-16" true [])
    = Ok out /\
    Sorted ts_le out /\ len out = 100 /\
    ~ keeps_arrival_order out
        (pd_concat [map Sample.tick_numbered (range 100)]).
Proof.
  split; [vm_compute; reflexivity |].
  split; [vm_compute; reflexivity |].
  split; [reflexivity |].
  eexists. split; [vm_compute; reflexivity |].
  split; [| split].
  - repeat (constructor; [| try (constructor; unfold ts_le; cbn; lia)]).
    constructor.
  - reflexivity.
  - intros Hkeep. specialize (Hkeep 63840873601000000).
    vm_compute in Hkeep. discriminate Hkeep.
Qed.

(** C6: when every day of the range has an empty record set,
    [download_range] returns an empty dataset, raises nothing and leaves the
    storage as it was, also with [save] set. *)
Theorem download_range_all_empty (env : Env) (self : DukascopyDownloader)
    (start_date end_date : string) (save : bool) (fs : storage)
    (start_dt end_dt : date) (dates : list date) :
  validate_date_range env start_date end_date = Ok (start_dt, end_dt) ->
  generate_date_range env start_dt end_dt = Ok dates ->
  (forall dt, In dt dates -> download_day env self dt = Ok []) ->
  download_range env self start_date end_date save fs = (Ok [], fs).
Proof.
  intros Hv Hg Hempty.
  rewrite download_range_spec, Hv, Hg. cbv zeta.
  assert (Hnone : filter nonempty (map (day_records env self) dates) = []).
  { clear Hv Hg.
    induction dates as [| dt dates IH]; [reflexivity |].
    cbn [map filter].
    pose proof (Hempty dt (or_introl eq_refl)) as Hd.
    rewrite download_day_spec in Hd. injection Hd as ->.
    cbn [nonempty empty negb].
    apply IH. intros d Hin. apply Hempty. right. exact Hin. }
  rewrite Hnone. reflexivity.
Qed.

Lemma download_range_all_empty_witness :
  download_range Sample.env_absent Sample.eurusd
    "2024-01-15" "2024-01-16" true []
  = (Ok [], []).
Proof.
  apply (download_range_all_empty Sample.env_absent Sample.eurusd
           "2024-01-15" "2024-01-16" true [] Sample.jan15 Sample.jan16
           [Sample.jan15; Sample.jan16]).
  - reflexivity.
  - reflexivity.
  - intros dt [<- | [<- | []]]; vm_compute; reflexivity.
Defined.

(** C7: whatever the hours do, nothing they raise leaves the core.  A fetch
    that fails gives "no data"; an hour without records leaves the day as it
    is; [download_day] always returns; and [download_range] raises exactly
    when one of the external validators raises, with that exception. *)
Theorem download_range_raises_only_validation (env : Env)
    (self : DukascopyDownloader) :
  (forall url,
     (exists r, _download_file env url = Ok r) /\
     (forall e, requests_get env url 30 = Raise e ->
                _download_file env url = Ok None)) /\
  (forall dt hour day_ticks,
     (exists day_ticks',
        download_day_step env self dt hour day_ticks = Ok day_ticks') /\
     (hour_records env self dt hour = [] ->
      download_day_step env self dt hour day_ticks = Ok day_ticks)) /\
  (forall dt, exists df, download_day env self dt = Ok df) /\
  (forall start_date end_date save fs,
     match validate_date_range env start_date end_date with
     | Raise e =>
         fst (download_range env self start_date end_date save fs) = Raise e
     | Ok (start_dt, end_dt) =>
         match generate_date_range env start_dt end_dt with
         | Raise e =>
             fst (download_range env self start_date end_date save fs)
             = Raise e
         | Ok _ =>
             exists df,
               fst (download_range env self start_date end_date save fs)
               = Ok df
         end
     end).
Proof.
  repeat split.
  - rewrite download_file_total. eauto.
  - intros e He. rewrite download_file_total, He. reflexivity.
  - rewrite download_day_step_spec. eauto.
  - intros Hnone. rewrite download_day_step_spec, Hnone. reflexivity.
  - intros dt. rewrite download_day_spec. eauto.
  - intros start_date end_date save fs. rewrite download_range_spec.
    destruct (validate_date_range env start_date end_date) as [[s e] | x];
      [| reflexivity].
    destruct (generate_date_range env s e) as [dates | x]; [| reflexivity].
    cbv zeta. destruct (empty_list _); cbn [fst]; eauto.
Qed.

Lemma download_range_raises_only_validation_witness :
  _download_file Sample.env_feed (Sample.url Sample.jan15 7) = Ok None /\
  download_day_step Sample.env_feed Sample.eurusd Sample.jan15 9 [] = Ok [] /\
  fst (download_range Sample.env_rejecting Sample.eurusd "2024-02-30" "x"
         true [])
  = Raise ValidationError.
Proof.
  pose proof (download_range_raises_only_validation
                Sample.env_feed Sample.eurusd) as (Hfile & Hstep & _ & _).
  pose proof (download_range_raises_only_validation
                Sample.env_rejecting Sample.eurusd) as (_ & _ & _ & Hrange).
  split; [| split].
  - apply (proj2 (Hfile (Sample.url Sample.jan15 7)) RequestException).
    vm_compute. reflexivity.
  - apply (proj2 (Hstep Sample.jan15 9 [])). vm_compute. reflexivity.
  - exact (Hrange "2024-02-30"%string "x"%string true []).
Defined.

(** C8: [download_range] writes exactly when [save] is set and the dataset
    it returns is not empty, and then writes once: the file
    <INSTRUMENT>_<start>_<end>.csv in the output directory, whose header is
    timestamp, ask, bid, ask_volume, bid_volume and whose rows are, for the
    ticks of the dataset in its order, the timestamp, the ask, the bid, the
    ask volume and the bid volume of the tick.  Without [save] the storage
    is left as it was. *)
Theorem download_range_write_iff (env : Env) (self : DukascopyDownloader)
    (start_date end_date : string) (save : bool) (fs : storage) :
  sort_contract (sort_values_timestamp env) ->
  exists written,
    snd (download_range env self start_date end_date save fs)
    = fs ++ written /\
    match fst (download_range env self start_date end_date save fs) with
    | Raise _ => written = []
    | Ok df =>
        if save && nonempty df then
          written
          = [{| filepath :=
                  os_path_join (output_dir self)
                    (pair self ++ "_" ++ start_date ++ "_" ++ end_date
                     ++ ".csv")%string;
                table :=
                  {| header := ["timestamp"%string; "ask"%string;
                                "bid"%string; "ask_volume"%string;
                                "bid_volume"%string];
                     rows :=
                       map (fun t =>
                              [CTime (timestamp t); CFloat (ask t);
                               CFloat (bid t); CFloat (ask_volume t);
                               CFloat (bid_volume t)])
                           df |} |}]
        else written = []
    end.
Proof.
  intros Hsort. rewrite download_range_spec.
  destruct (validate_date_range env start_date end_date) as [[s e] | x];
    [| exists []; cbn [fst snd]; rewrite app_nil_r; auto].
  destruct (generate_date_range env s e) as [dates | x];
    [| exists []; cbn [fst snd]; rewrite app_nil_r; auto].
  cbv zeta.
  destruct (empty_list (filter nonempty _)) eqn:Hne; cbn [fst snd].
  - exists []. rewrite app_nil_r. cbn [nonempty empty negb].
    rewrite andb_false_r. auto.
  - rewrite (sorted_frame_nonempty _ _ Hsort Hne), andb_true_r.
    destruct save.
    + eexists. split; reflexivity.
    + exists []. rewrite app_nil_r. auto.
Qed.

Lemma download_range_write_iff_witness :
  exists written,
    snd (download_range Sample.env_pair_kept Sample.eurusd
           "2024-01-15" "2024-01-16" true [])
    = [] ++ written /\
    written
    = [{| filepath := "data/raw/EURUSD_2024-01-15_2024-01-16.csv"%string;
          table :=
            {| header := ["timestamp"%string; "ask"%string; "bid"%string;
                          "ask_volume"%string; "bid_volume"%string];
               rows :=
                 [[CTime 63840873601000000;
                   CFloat (S754_finite false 5059569001369384 (-52));
                   CFloat (S754_finite false 5058803389432731 (-52));
                   CFloat (S754_finite false 4503599627370496 (-52));
                   CFloat (S754_finite false 4503599627370496 (-51))];
                  [CTime 63840873601000000;
                   CFloat (S754_finite false 5059614037365657 (-52));
                   CFloat (S754_finite false 5058848425429004 (-52));
                   CFloat (S754_finite false 6755399441055744 (-52));
                   CFloat (S754_finite false 4503599627370496 (-53))]] |}
       |}].
Proof.
  apply (download_range_write_iff Sample.env_pair_kept Sample.eurusd
           "2024-01-15" "2024-01-16" true []).
  apply sort_keeping_ties_contract.
Defined.

(** ** Further properties of the record parser *)

Lemma parse_loop_exact (data : bytes) (base : datetime) (idx : list Z) :
  0 <= base ->
  (forall i, In i idx -> 0 <= i /\ 20 * (i + 1) <= len data) ->
  forall acc,
    for_each idx (_parse_bi5_step data base) acc
    = if forallb (record_fits data base) idx
      then Ok (acc ++ map (record_tick data base) idx)
      else Raise OverflowError.
Proof.
  intros Hbase.
  induction idx as [| i idx IH]; intros Hidx acc.
  - cbn. rewrite app_nil_r. reflexivity.
  - cbn [for_each map forallb].
    destruct (Hidx i (or_introl eq_refl)) as [Hi Hlen].
    rewrite parse_step_spec by assumption.
    pose proof (be_uint32_range data (20 * i)) as Hu.
    unfold datetime_add, record_fits, timedelta_milliseconds in *.
    cbv zeta.
    replace (0 <=? base + be_uint32 data (20 * i) * 1000) with true
      by (symmetry; apply Z.leb_le; lia).
    cbn [andb].
    destruct (_ <? _); cbn [bind andb]; [| reflexivity].
    rewrite (IH (fun j Hj => Hidx j (or_intror Hj))).
    rewrite <- app_assoc. reflexivity.
Qed.

(** The result of the parser for a valid hour, in closed form. *)
Lemma parse_bi5_exact (data : bytes) (dt : date) (hour : Z) (base : datetime) :
  hour_start dt hour = Ok base ->
  _parse_bi5 data dt hour
  = if forallb (record_fits data base) (range (len data / chunk_size))
    then Ok (map (record_tick data base) (range (len data / chunk_size)))
    else Raise OverflowError.
Proof.
  intros Hb. pose proof (datetime_new_nonneg _ _ _ _ _ _ _ Hb) as Hbase.
  unfold _parse_bi5, hour_start in *.
  destruct (Z.eqb_spec (len data) 0) as [H0 | Hn0].
  - rewrite H0. reflexivity.
  - cbv zeta. rewrite Hb. cbn [bind].
    rewrite (parse_loop_exact data base _ Hbase
               (range_records_in_buffer data)).
    destruct (forallb _ _); reflexivity.
Qed.

(** X1: for a valid hour start, the parser raises exactly when some
    complete record carries an offset that pushes its timestamp past the end
    of datetime's range, and then returns no tick at all; otherwise it
    returns the ticks of all complete records.  Prices and volumes play no
    part in whether it returns. *)
Theorem parse_bi5_raises_iff_overflow (data : bytes) (dt : date) (hour : Z)
    (base : datetime) :
  hour_start dt hour = Ok base ->
  (_parse_bi5 data dt hour = Raise OverflowError <->
   exists i, 0 <= i < len data / 20 /\
             MAXORDINAL * us_per_day
             <= base + timedelta_milliseconds (be_uint32 data (20 * i))) /\
  ((forall i, 0 <= i < len data / 20 ->
              base + timedelta_milliseconds (be_uint32 data (20 * i))
              < MAXORDINAL * us_per_day) ->
   _parse_bi5 data dt hour
   = Ok (map (record_tick data base) (range (len data / 20)))).
Proof.
  intros Hb. rewrite (parse_bi5_exact data dt hour base Hb).
  change chunk_size with 20.
  destruct (forallb (record_fits data base) (range (len data / 20))) eqn:Hall.
  - rewrite forallb_forall in Hall. split; [split |].
    + discriminate.
    + intros (i & Hi & Hover). apply In_range in Hi.
      specialize (Hall i Hi). unfold record_fits in Hall.
      apply Z.ltb_lt in Hall. lia.
    + reflexivity.
  - assert (Hex : exists i, In i (range (len data / 20)) /\
                            record_fits data base i = false).
    { clear Hb. induction (range (len data / 20)) as [| j l IH];
        [discriminate |].
      cbn [forallb] in Hall. apply andb_false_iff in Hall as [Hj | Hl].
      - exists j. split; [left; reflexivity | exact Hj].
      - destruct (IH Hl) as (i & Hi & Hf). exists i. split;
          [right; exact Hi | exact Hf]. }
    destruct Hex as (i & Hi & Hf). apply In_range in Hi.
    unfold record_fits in Hf. apply Z.ltb_ge in Hf.
    split; [split |].
    + intros _. exists i. split; assumption.
    + reflexivity.
    + intros Hfit. specialize (Hfit i Hi). lia.
Qed.

Lemma parse_bi5_raises_iff_overflow_witness :
  _parse_bi5 (Sample.record_a ++ Sample.record_late) Sample.last_day 23
  = Raise OverflowError.
Proof.
  apply (proj1 (parse_bi5_raises_iff_overflow
                  (Sample.record_a ++ Sample.record_late) Sample.last_day 23
                  315537894000000000 eq_refl)).
  exists 1. split; [vm_compute; split; [discriminate | reflexivity] |].
  vm_compute. discriminate.
Defined.

Lemma hour_start_invalid_hour (dt : date) (hour : Z) :
  valid_date_fields (year dt) (month dt) (day dt) = true ->
  hour < 0 \/ 23 < hour ->
  hour_start dt hour
  = Raise (if fits_c_int hour then ValueError else OverflowError).
Proof.
  intros Hd Hbad. unfold hour_start, datetime_new. rewrite Hd.
  apply valid_date_fields_inv in Hd as (Hy & Hm & Hday).
  assert (Hfits : forallb fits_c_int
                    [year dt; month dt; day dt; hour; 0; 0]
                  = fits_c_int hour).
  { cbn [forallb].
    replace (fits_c_int (year dt)) with true
      by (symmetry; unfold fits_c_int; apply andb_true_intro; split;
          apply Z.leb_le; lia).
    replace (fits_c_int (month dt)) with true
      by (symmetry; unfold fits_c_int; apply andb_true_intro; split;
          apply Z.leb_le; lia).
    replace (fits_c_int (day dt)) with true
      by (symmetry; unfold fits_c_int; apply andb_true_intro; split;
          apply Z.leb_le; lia).
    change (fits_c_int 0) with true. cbn [andb].
    rewrite andb_true_r. reflexivity. }
  rewrite Hfits.
  destruct (fits_c_int hour); cbn [negb]; [| reflexivity].
  replace (valid_time_fields hour 0 0) with false; [reflexivity |].
  symmetry. unfold valid_time_fields.
  destruct Hbad as [Hlt | Hgt].
  - replace (0 <=? hour) with false by (symmetry; apply Z.leb_gt; lia).
    reflexivity.
  - replace (hour <=? 23) with false by (symmetry; apply Z.leb_gt; lia).
    rewrite andb_false_r. reflexivity.
Qed.

(** X2: for a calendar date and an hour outside 0..23, the parser raises
    for every non-empty buffer, also one too short to hold a record,
    because the hour start is built before the loop: ValueError when the
    hour is a C int, OverflowError when it is not.  The empty buffer still
    gives the empty frame, because it is checked first. *)
Theorem parse_bi5_invalid_context (data : bytes) (dt : date) (hour : Z) :
  valid_date_fields (year dt) (month dt) (day dt) = true ->
  hour < 0 \/ 23 < hour ->
  _parse_bi5 data dt hour
  = if len data =? 0 then Ok []
    else if fits_c_int hour then Raise ValueError
    else Raise OverflowError.
Proof.
  intros Hd Hbad.
  pose proof (hour_start_invalid_hour dt hour Hd Hbad) as Hraise.
  destruct (Z.eqb_spec (len data) 0) as [H0 | Hn0].
  - unfold _parse_bi5. rewrite H0. reflexivity.
  - rewrite (parse_bi5_invalid_hour data dt hour _ Hraise Hn0).
    destruct (fits_c_int hour); reflexivity.
Qed.

Lemma parse_bi5_invalid_context_witness :
  _parse_bi5 (Sample.mkbytes [1; 2; 3]) Sample.jan15 24 = Raise ValueError /\
  _parse_bi5 (Sample.mkbytes [1; 2; 3]) Sample.jan15 2147483648
  = Raise OverflowError.
Proof.
  split.
  - apply (parse_bi5_invalid_context (Sample.mkbytes [1; 2; 3])
             Sample.jan15 24).
    + reflexivity.
    + right. lia.
  - apply (parse_bi5_invalid_context (Sample.mkbytes [1; 2; 3])
             Sample.jan15 2147483648).
    + reflexivity.
    + right. lia.
Defined.

Lemma byte_at_app_l (body tail : bytes) (j : Z) :
  0 <= j < len body -> byte_at (body ++ tail) j = byte_at body j.
Proof.
  intros Hj. unfold byte_at, len in *. rewrite app_nth1 by lia. reflexivity.
Qed.

Lemma byte_at_app_r (body tail : bytes) (j : Z) :
  0 <= j -> byte_at (body ++ tail) (len body + j) = byte_at tail j.
Proof.
  intros Hj. unfold byte_at, len. rewrite app_nth2 by lia.
  do 2 f_equal. lia.
Qed.

Lemma be_uint32_app_l (body tail : bytes) (o : Z) :
  0 <= o -> o + 4 <= len body ->
  be_uint32 (body ++ tail) o = be_uint32 body o.
Proof.
  intros Ho Hlen. unfold be_uint32. rewrite !byte_at_app_l by lia.
  reflexivity.
Qed.

Lemma be_uint32_app_r (body tail : bytes) (o : Z) :
  0 <= o -> be_uint32 (body ++ tail) (len body + o) = be_uint32 tail o.
Proof.
  intros Ho. unfold be_uint32.
  rewrite <- !Z.add_assoc, !byte_at_app_r by lia. reflexivity.
Qed.

Lemma record_tick_app_l (body tail : bytes) (base : datetime) (i : Z) :
  0 <= i -> 20 * (i + 1) <= len body ->
  record_tick (body ++ tail) base i = record_tick body base i.
Proof.
  intros Hi Hlen. unfold record_tick, be_float32. cbv zeta.
  rewrite !be_uint32_app_l by lia. reflexivity.
Qed.

Lemma record_tick_app_r (body tail : bytes) (base : datetime) (n i : Z) :
  0 <= i -> len body = 20 * n ->
  record_tick (body ++ tail) base (n + i) = record_tick tail base i.
Proof.
  intros Hi Hn. unfold record_tick, be_float32. cbv zeta.
  replace (20 * (n + i)) with (len body + 20 * i) by lia.
  rewrite <- !Z.add_assoc, !be_uint32_app_r by lia. reflexivity.
Qed.

Lemma record_fits_app_l (body tail : bytes) (base : datetime) (i : Z) :
  0 <= i -> 20 * (i + 1) <= len body ->
  record_fits (body ++ tail) base i = record_fits body base i.
Proof.
  intros Hi Hlen. unfold record_fits.
  rewrite be_uint32_app_l by lia. reflexivity.
Qed.

Lemma record_fits_app_r (body tail : bytes) (base : datetime) (n i : Z) :
  0 <= i -> len body = 20 * n ->
  record_fits (body ++ tail) base (n + i) = record_fits tail base i.
Proof.
  intros Hi Hn. unfold record_fits.
  replace (20 * (n + i)) with (len body + 20 * i) by lia.
  rewrite be_uint32_app_r by lia. reflexivity.
Qed.

Lemma map_of_nat_seq_shift (a : nat) (count start : nat) :
  map Z.of_nat (seq (a + start) count)
  = map (fun x => Z.of_nat a + Z.of_nat x) (seq start count).
Proof.
  revert start. induction count as [| count IH]; intros start;
    [reflexivity |].
  cbn [seq map]. f_equal; [lia |].
  rewrite <- IH. f_equal. f_equal. lia.
Qed.

Lemma range_add (n k : Z) :
  0 <= n -> 0 <= k ->
  range (n + k) = range n ++ map (fun i => n + i) (range k).
Proof.
  intros Hn Hk. unfold range.
  rewrite Z2Nat.inj_add, seq_app, map_app, map_map by lia.
  f_equal. cbn [Nat.add].
  rewrite <- (Nat.add_0_r (Z.to_nat n)) at 1.
  rewrite map_of_nat_seq_shift.
  apply map_ext. intros x. lia.
Qed.

Lemma forallb_map_comp {A B} (f : B -> bool) (g : A -> B) (l : list A) :
  forallb f (map g l) = forallb (fun x => f (g x)) l.
Proof.
  induction l as [| x l IH]; [reflexivity |]. cbn. rewrite IH. reflexivity.
Qed.

Lemma forallb_ext_in {A} (f g : A -> bool) (l : list A) :
  (forall x, In x l -> f x = g x) -> forallb f l = forallb g l.
Proof.
  induction l as [| x l IH]; intros H; [reflexivity |].
  cbn. rewrite (H x (or_introl eq_refl)), IH; [reflexivity |].
  intros y Hy. apply H. right. exact Hy.
Qed.

(** X3: on a buffer made of whole records followed by any further bytes,
    the parser returns the ticks of the first part followed by the ticks of
    the rest, when the hour is valid; it raises OverflowError as soon as one
    of the two parts does. *)
Theorem parse_bi5_app (body tail : bytes) (dt : date) (hour : Z)
    (base : datetime) :
  hour_start dt hour = Ok base ->
  len body mod 20 = 0 ->
  _parse_bi5 (body ++ tail) dt hour
  = match _parse_bi5 body dt hour, _parse_bi5 tail dt hour with
    | Ok ticks1, Ok ticks2 => Ok (ticks1 ++ ticks2)
    | _, _ => Raise OverflowError
    end.
Proof.
  intros Hb Hmod.
  rewrite !(parse_bi5_exact _ dt hour base Hb). unfold chunk_size.
  pose proof (len_nonneg body) as Hlb. pose proof (len_nonneg tail) as Hlt.
  set (n := len body / 20). set (k := len tail / 20).
  assert (Hn : len body = 20 * n)
    by (subst n; Z.div_mod_to_equations; lia).
  assert (Hn0 : 0 <= n) by lia.
  assert (Hk0 : 0 <= k) by (subst k; Z.div_mod_to_equations; lia).
  assert (Hlen : len (body ++ tail) / 20 = n + k).
  { unfold len in *. rewrite length_app, Nat2Z.inj_add, Hn.
    subst k. Z.div_mod_to_equations. lia. }
  rewrite Hlen, range_add by assumption.
  rewrite forallb_app, map_app, forallb_map_comp, map_map.
  rewrite (forallb_ext_in (record_fits (body ++ tail) base)
             (record_fits body base) (range n)).
  2:{ intros i Hi. apply In_range in Hi.
      apply record_fits_app_l; lia. }
  rewrite (forallb_ext_in (fun x => record_fits (body ++ tail) base (n + x))
             (record_fits tail base) (range k)).
  2:{ intros i Hi. apply In_range in Hi.
      apply record_fits_app_r; lia. }
  rewrite (map_ext_in (record_tick (body ++ tail) base)
             (record_tick body base) (range n)).
  2:{ intros i Hi. apply In_range in Hi.
      apply record_tick_app_l; lia. }
  rewrite (map_ext_in (fun x => record_tick (body ++ tail) base (n + x))
             (record_tick tail base) (range k)).
  2:{ intros i Hi. apply In_range in Hi.
      apply record_tick_app_r; lia. }
  destruct (forallb (record_fits body base) (range n));
    destruct (forallb (record_fits tail base) (range k)); reflexivity.
Qed.

Lemma parse_bi5_app_witness :
  _parse_bi5 (Sample.record_a ++ Sample.record_b ++ Sample.mkbytes [7])
    Sample.jan15 0
  = Ok ([Sample.tick_a] ++ [Sample.tick_b]).
Proof.
  apply (parse_bi5_app Sample.record_a
           (Sample.record_b ++ Sample.mkbytes [7]) Sample.jan15 0
           63840873600000000).
  - reflexivity.
  - reflexivity.
Defined.

(** ** Order of the ticks of one hour *)

Lemma Sorted_map_iff {A B C} (R : B -> B -> Prop) (S : C -> C -> Prop)
    (f : A -> B) (g : A -> C) (l : list A) :
  (forall a b, R (f a) (f b) <-> S (g a) (g b)) ->
  Sorted R (map f l) <-> Sorted S (map g l).
Proof.
  intros Hrel. induction l as [| a l IH]; cbn [map].
  - split; constructor.
  - split; intros H; inversion H as [| ? ? Hs Hh]; subst;
      (constructor; [apply IH; exact Hs |]);
      destruct l as [| b l]; cbn [map] in *; constructor;
      inversion Hh; subst; apply Hrel; assumption.
Qed.

(** X4: the ticks the parser returns are in non-decreasing order of
    timestamp exactly when the offsets of the records are in non-decreasing
    order in the buffer: the parser neither sorts nor reorders. *)
Theorem parse_bi5_sorted_iff_offsets (data : bytes) (dt : date) (hour : Z)
    (ticks : DataFrame) :
  _parse_bi5 data dt hour = Ok ticks ->
  (Sorted ts_le ticks <-> Sorted Z.le (offsets data)).
Proof.
  intros H. unfold offsets.
  apply parse_bi5_ok_inv in H as [[H0 ->] | (base & _ & ->)].
  - rewrite H0. split; constructor.
  - apply Sorted_map_iff. intros a b.
    unfold ts_le, record_tick, timedelta_milliseconds. cbn [timestamp]. lia.
Qed.

Lemma parse_bi5_sorted_iff_offsets_witness :
  Sorted ts_le [Sample.tick_a3; Sample.tick_a3]
  <-> Sorted Z.le (offsets (Sample.payload 2 Sample.record_a)).
Proof.
  apply (parse_bi5_sorted_iff_offsets (Sample.payload 2 Sample.record_a)
           Sample.jan15 3).
  vm_compute. reflexivity.
Defined.

(** ** Further properties of the resource locator *)

Lemma append_inv_head (p s t : string) :
  (p ++ s)%string = (p ++ t)%string -> s = t.
Proof.
  induction p as [| c p IH]; cbn [append]; intros H; [exact H |].
  injection H as H. apply IH, H.
Qed.

Lemma digit_inj (a b : Z) :
  0 <= a <= 9 -> 0 <= b <= 9 -> digit a = digit b -> a = b.
Proof.
  intros Ha Hb H. unfold digit in H.
  apply (f_equal nat_of_ascii) in H.
  rewrite !nat_ascii_embedding in H by lia. lia.
Qed.

Lemma two_digits_inj (a b : Z) (s t : string) :
  0 <= a <= 99 -> 0 <= b <= 99 ->
  (two_digits a ++ s)%string = (two_digits b ++ t)%string ->
  a = b /\ s = t.
Proof.
  intros Ha Hb H. unfold two_digits in H. cbn [append] in H.
  injection H as H1 H2 H3.
  apply digit_inj in H1; [| Z.div_mod_to_equations; lia ..].
  apply digit_inj in H2; [| Z.div_mod_to_equations; lia ..].
  split; [| exact H3]. Z.div_mod_to_equations. lia.
Qed.

Lemma four_digits_inj (a b : Z) (s t : string) :
  0 <= a <= 9999 -> 0 <= b <= 9999 ->
  (four_digits a ++ s)%string = (four_digits b ++ t)%string ->
  a = b /\ s = t.
Proof.
  intros Ha Hb H. unfold four_digits in H. cbn [append] in H.
  injection H as H1 H2 H3 H4 H5.
  apply digit_inj in H1; [| Z.div_mod_to_equations; lia ..].
  apply digit_inj in H2; [| Z.div_mod_to_equations; lia ..].
  apply digit_inj in H3; [| Z.div_mod_to_equations; lia ..].
  apply digit_inj in H4; [| Z.div_mod_to_equations; lia ..].
  split; [| exact H5].
  assert (Ha' : a = 1000 * (a / 1000) + 100 * (a / 100 mod 10)
                    + 10 * (a / 10 mod 10) + a mod 10)
    by (Z.div_mod_to_equations; lia).
  assert (Hb' : b = 1000 * (b / 1000) + 100 * (b / 100 mod 10)
                    + 10 * (b / 10 mod 10) + b mod 10)
    by (Z.div_mod_to_equations; lia).
  rewrite Ha', Hb', H1, H2, H3, H4. reflexivity.
Qed.

Lemma get_tick_url_inj (self : DukascopyDownloader) (dt dt' : date)
    (hour hour' : Z) :
  locator_input dt hour -> locator_input dt' hour' ->
  _get_tick_url self dt hour = _get_tick_url self dt' hour' ->
  dt = dt' /\ hour = hour'.
Proof.
  intros (Hy & Hm & Hd & Hh) (Hy' & Hm' & Hd' & Hh') H.
  unfold _get_tick_url in H. cbv zeta in H.
  rewrite !format_0d_four_digits, !format_0d_two_digits in H by lia.
  do 4 apply append_inv_head in H.
  apply four_digits_inj in H as [Ey H]; [| lia ..].
  apply append_inv_head in H.
  apply two_digits_inj in H as [Em H]; [| lia ..].
  apply append_inv_head in H.
  apply two_digits_inj in H as [Ed H]; [| lia ..].
  apply append_inv_head in H.
  apply two_digits_inj in H as [Eh _]; [| lia ..].
  split; [| exact Eh].
  destruct dt as [y m d], dt' as [y' m' d']. cbn in *.
  f_equal; lia.
Qed.

(** X5: for one instrument, two different (date, hour) pairs never get the
    same path: on calendar dates and hours of the day the locator is
    injective, so no two hours of a run share a resource. *)
Theorem get_tick_url_distinct (self : DukascopyDownloader) (dt dt' : date)
    (hour hour' : Z) :
  locator_input dt hour -> locator_input dt' hour' ->
  dt <> dt' \/ hour <> hour' ->
  _get_tick_url self dt hour <> _get_tick_url self dt' hour'.
Proof.
  intros Hin Hin' Hne Heq.
  destruct (get_tick_url_inj self dt dt' hour hour' Hin Hin' Heq) as [Hd Hh].
  destruct Hne as [Hne | Hne]; contradiction.
Qed.

Lemma get_tick_url_distinct_witness :
  _get_tick_url Sample.eurusd Sample.jan15 23
  <> _get_tick_url Sample.eurusd Sample.jan16 0.
Proof.
  apply (get_tick_url_distinct Sample.eurusd Sample.jan15 Sample.jan16 23 0).
  - unfold locator_input. cbn. lia.
  - unfold locator_input. cbn. lia.
  - right. lia.
Defined.

(** ** Further properties of the day orchestrator *)

Lemma record_tick_bounds (data : bytes) (base : datetime) (i : Z) :
  base <= timestamp (record_tick data base i)
       < base + timedelta_milliseconds (2 ^ 32) /\
  nonneg (ask (record_tick data base i)) /\
  nonneg (bid (record_tick data base i)).
Proof.
  unfold record_tick. cbv zeta. cbn [timestamp ask bid].
  pose proof (be_uint32_range data (20 * i)).
  pose proof (be_uint32_range data (20 * i + 4)).
  pose proof (be_uint32_range data (20 * i + 8)).
  unfold timedelta_milliseconds. change (2 ^ 32) with 4294967296.
  repeat split; try lia; apply price_nonneg; lia.
Qed.

(** A tick of an hour is the tick of a record of the payload of that
    hour. *)
Lemma hour_records_inv (env : Env) (self : DukascopyDownloader) (dt : date)
    (hour : Z) (t : Tick) :
  In t (hour_records env self dt hour) ->
  exists raw base i,
    hour_start dt hour = Ok base /\ t = record_tick raw base i.
Proof.
  unfold hour_records. intros Hin.
  destruct (requests_get env _ 30) as [r | e]; [| destruct Hin].
  destruct (status_code r =? 200); [| destruct Hin].
  destruct (lzma_decompress env (content r)) as [raw | e]; [| destruct Hin].
  destruct (_parse_bi5 raw dt hour) as [df | e] eqn:Hp; [| destruct Hin].
  apply parse_bi5_ok_inv in Hp as [[_ ->] | (base & Hb & ->)];
    [destruct Hin |].
  apply in_map_iff in Hin as (i & <- & _).
  exists raw, base, i. split; [exact Hb | reflexivity].
Qed.

Lemma hour_start_value (dt : date) (hour : Z) (base : datetime) :
  hour_start dt hour = Ok base ->
  0 <= hour <= 23 /\
  hour_start dt 0 = Ok (base - hour * 3600000000).
Proof.
  unfold hour_start. intros Hb.
  apply datetime_new_inv in Hb as (Hd & Ht & ->).
  apply valid_time_fields_inv in Ht as (Hh & _ & _).
  split; [exact Hh |].
  rewrite (datetime_new_valid _ _ _ 0 0 0 Hd eq_refl). f_equal. lia.
Qed.

Lemma In_day_records (env : Env) (self : DukascopyDownloader) (dt : date)
    (t : Tick) :
  In t (day_records env self dt) <->
  exists hour, 0 <= hour < 24 /\ In t (hour_records env self dt hour).
Proof.
  unfold day_records. rewrite concat_filter_nonempty. unfold pd_concat.
  rewrite in_concat. split.
  - intros (df & Hdf & Hin). apply in_map_iff in Hdf as (h & <- & Hh).
    apply In_range in Hh. eauto.
  - intros (h & Hh & Hin). exists (hour_records env self dt h).
    split; [| exact Hin]. apply in_map_iff. exists h.
    split; [reflexivity | apply In_range, Hh].
Qed.

(** X6: every tick of the frame [download_day] returns for a date comes
    from one of its 24 hours, has a timestamp from the start of that hour
    up to, but not including, 2^32 milliseconds later, and so is never
    earlier than the start of the day, though it can be later than its end;
    its prices are not negative. *)
Theorem download_day_tick_bounds (env : Env) (self : DukascopyDownloader)
    (dt : date) (df : DataFrame) (t : Tick) :
  download_day env self dt = Ok df -> In t df ->
  exists hour base,
    0 <= hour < 24 /\ In t (hour_records env self dt hour) /\
    hour_start dt hour = Ok base /\
    base <= timestamp t < base + timedelta_milliseconds (2 ^ 32) /\
    hour_start dt 0 = Ok (base - hour * 3600000000) /\
    nonneg (ask t) /\ nonneg (bid t).
Proof.
  intros Hd Hin. rewrite download_day_spec in Hd. injection Hd as <-.
  apply In_day_records in Hin as (hour & Hh & Hin).
  destruct (hour_records_inv env self dt hour t Hin)
    as (raw & base & i & Hb & ->).
  destruct (hour_start_value dt hour base Hb) as [_ H0].
  destruct (record_tick_bounds raw base i) as (Hts & Hask & Hbid).
  exists hour, base. repeat split; try assumption; lia.
Qed.

Lemma download_day_tick_bounds_witness :
  exists hour base,
    0 <= hour < 24 /\
    In Sample.tick_a (hour_records Sample.env_pair Sample.eurusd
                        Sample.jan15 hour) /\
    hour_start Sample.jan15 hour = Ok base /\
    base <= timestamp Sample.tick_a
         < base + timedelta_milliseconds (2 ^ 32) /\
    hour_start Sample.jan15 0 = Ok (base - hour * 3600000000) /\
    nonneg (ask Sample.tick_a) /\ nonneg (bid Sample.tick_a).
Proof.
  apply (download_day_tick_bounds Sample.env_pair Sample.eurusd Sample.jan15
           [Sample.tick_a; Sample.tick_b]).
  - vm_compute. reflexivity.
  - left. reflexivity.
Defined.

Lemma StronglySorted_app_cross {A} (R : A -> A -> Prop) (l1 l2 : list A) :
  StronglySorted R l1 -> StronglySorted R l2 ->
  (forall a b, In a l1 -> In b l2 -> R a b) ->
  StronglySorted R (l1 ++ l2).
Proof.
  intros H1 H2 Hcross. induction H1 as [| a l1 Hs IH Hall]; [exact H2 |].
  cbn [app]. constructor.
  - apply IH. intros x y Hx Hy. apply Hcross; [right; exact Hx | exact Hy].
  - apply Forall_app. split; [exact Hall |].
    apply Forall_forall. intros b Hb. apply Hcross; [left; reflexivity |].
    exact Hb.
Qed.

Lemma ts_le_trans : Relations_1.Transitive ts_le.
Proof. intros a b c. unfold ts_le. lia. Qed.

(** Hours in increasing order, each in order and within its own hour, give
    a day in order. *)
Lemma hours_in_order_sorted (env : Env) (self : DukascopyDownloader)
    (dt : date) (hours : list Z) :
  StronglySorted Z.lt hours ->
  (forall hour, In hour hours ->
                Sorted ts_le (hour_records env self dt hour)) ->
  (forall hour t base,
     In hour hours -> In t (hour_records env self dt hour) ->
     hour_start dt hour = Ok base -> timestamp t < base + 3600000000) ->
  StronglySorted ts_le
    (concat (map (hour_records env self dt) hours)).
Proof.
  intros Hinc. induction Hinc as [| h hours Hs IH Hlt]; intros Hsorted Hin.
  - constructor.
  - cbn [map concat]. apply StronglySorted_app_cross.
    + apply Sorted_StronglySorted; [apply ts_le_trans |].
      apply Hsorted. left. reflexivity.
    + apply IH.
      * intros h' Hh'. apply Hsorted. right. exact Hh'.
      * intros h' t base Hh'. apply Hin. right. exact Hh'.
    + intros a b Ha Hb.
      apply in_concat in Hb as (df & Hdf & Hb).
      apply in_map_iff in Hdf as (h' & <- & Hh').
      rewrite Forall_forall in Hlt. specialize (Hlt h' Hh').
      destruct (hour_records_inv env self dt h a Ha)
        as (raw & base & i & Hbase & Ea).
      destruct (hour_records_inv env self dt h' b Hb)
        as (raw' & base' & i' & Hbase' & ->).
      pose proof (Hin h a base (or_introl eq_refl) Ha Hbase) as Hupper.
      destruct (record_tick_bounds raw' base' i') as ((Hlow & _) & _).
      destruct (hour_start_value dt h base Hbase) as [_ H0].
      destruct (hour_start_value dt h' base' Hbase') as [_ H0'].
      rewrite H0 in H0'. injection H0' as H0'.
      unfold ts_le. lia.
Qed.

Lemma range_24_increasing : StronglySorted Z.lt (range 24).
Proof.
  change (range 24)
    with [0; 1; 2; 3; 4; 5; 6; 7; 8; 9; 10; 11; 12; 13; 14; 15; 16; 17;
          18; 19; 20; 21; 22; 23].
  repeat (constructor; [| repeat (constructor; [lia |]); constructor]).
  constructor.
Qed.

(** X7: when the records of every hour are in timestamp order and stay
    within their hour (offsets below 3,600,000 ms), the frame
    [download_day] returns is already in timestamp order. *)
Theorem download_day_sorted (env : Env) (self : DukascopyDownloader)
    (dt : date) :
  (forall hour, 0 <= hour < 24 ->
                Sorted ts_le (hour_records env self dt hour)) ->
  (forall hour t base,
     0 <= hour < 24 -> In t (hour_records env self dt hour) ->
     hour_start dt hour = Ok base -> timestamp t < base + 3600000000) ->
  exists df, download_day env self dt = Ok df /\ Sorted ts_le df.
Proof.
  intros Hsorted Hin. exists (day_records env self dt).
  split; [apply download_day_spec |].
  unfold day_records. rewrite concat_filter_nonempty.
  apply StronglySorted_Sorted, hours_in_order_sorted.
  - apply range_24_increasing.
  - intros h Hh. apply Hsorted, In_range, Hh.
  - intros h t base Hh. apply Hin, In_range, Hh.
Qed.

Lemma download_day_sorted_witness :
  exists df,
    download_day Sample.env_pair Sample.eurusd Sample.jan15 = Ok df /\
    Sorted ts_le df.
Proof.
  assert (Hcases : forall hour, 0 <= hour < 24 ->
            hour_records Sample.env_pair Sample.eurusd Sample.jan15 hour
            = if hour =? 0 then [Sample.tick_a; Sample.tick_b] else []).
  { intros hour Hh.
    assert (Hc : hour = 0 \/ hour = 1 \/ hour = 2 \/ hour = 3 \/ hour = 4 \/
                 hour = 5 \/ hour = 6 \/ hour = 7 \/ hour = 8 \/ hour = 9 \/
                 hour = 10 \/ hour = 11 \/ hour = 12 \/ hour = 13 \/
                 hour = 14 \/ hour = 15 \/ hour = 16 \/ hour = 17 \/
                 hour = 18 \/ hour = 19 \/ hour = 20 \/ hour = 21 \/
                 hour = 22 \/ hour = 23) by lia.
    decompose [or] Hc; subst hour; vm_compute; reflexivity. }
  apply (download_day_sorted Sample.env_pair Sample.eurusd Sample.jan15).
  - intros hour Hh. rewrite (Hcases hour Hh).
    destruct (hour =? 0); [| constructor].
    repeat constructor. unfold ts_le. cbn. lia.
  - intros hour t base Hh Hin Hb. rewrite (Hcases hour Hh) in Hin.
    destruct (Z.eqb_spec hour 0) as [-> | _]; [| destruct Hin].
    vm_compute in Hb. injection Hb as <-.
    destruct Hin as [<- | [<- | []]]; cbn; lia.
Defined.

(** What an hour contributes depends on the environment only through the
    response to the request for that hour and the codec. *)
Lemma hour_records_ext (env env' : Env) (self : DukascopyDownloader)
    (dt : date) (hour : Z) :
  (forall b, lzma_decompress env b = lzma_decompress env' b) ->
  requests_get env (_get_tick_url self dt hour) 30
  = requests_get env' (_get_tick_url self dt hour) 30 ->
  hour_records env self dt hour = hour_records env' self dt hour.
Proof.
  intros Hcodec Hget. unfold hour_records. rewrite Hget.
  destruct (requests_get env' _ 30) as [r | e]; [| reflexivity].
  rewrite Hcodec. reflexivity.
Qed.

Lemma range_split (n h : Z) :
  0 <= h < n ->
  range n = range h ++ h :: map (fun i => h + 1 + i) (range (n - h - 1)).
Proof.
  intros Hh.
  replace n with (h + (1 + (n - h - 1))) at 1 by lia.
  rewrite range_add by lia. f_equal.
  rewrite range_add by lia.
  change (range 1) with [0]. cbn [map app].
  rewrite map_map. f_equal; [lia |].
  apply map_ext. intros i. lia.
Qed.

(** X8: the hours of a day do not affect one another.  If two
    environments answer alike for every hour of the day but one, the two
    frames [download_day] returns differ only in the records of that hour:
    the records before it and after it are the same. *)
Theorem download_day_hour_isolated (env env' : Env)
    (self : DukascopyDownloader) (dt : date) (hour : Z) :
  (forall b, lzma_decompress env b = lzma_decompress env' b) ->
  0 <= hour < 24 ->
  (forall h, 0 <= h < 24 -> h <> hour ->
             requests_get env (_get_tick_url self dt h) 30
             = requests_get env' (_get_tick_url self dt h) 30) ->
  exists before after,
    download_day env self dt
    = Ok (before ++ hour_records env self dt hour ++ after) /\
    download_day env' self dt
    = Ok (before ++ hour_records env' self dt hour ++ after).
Proof.
  intros Hcodec Hh Hsame.
  exists (concat (map (hour_records env self dt) (range hour))),
         (concat (map (hour_records env self dt)
                    (map (fun i => hour + 1 + i) (range (24 - hour - 1))))).
  rewrite !download_day_spec. unfold day_records.
  rewrite !concat_filter_nonempty. unfold pd_concat.
  rewrite (range_split 24 hour Hh).
  rewrite !map_app, !concat_app. cbn [map concat].
  split; [reflexivity |].
  rewrite (map_ext_in (hour_records env' self dt)
             (hour_records env self dt) (range hour)).
  2:{ intros h Hin. apply In_range in Hin.
      symmetry. apply hour_records_ext; [exact Hcodec |].
      apply Hsame; lia. }
  rewrite (map_ext_in (hour_records env' self dt)
             (hour_records env self dt)
             (map (fun i => hour + 1 + i) (range (24 - hour - 1)))).
  2:{ intros h Hin.
      apply in_map_iff in Hin as (i & <- & Hi). apply In_range in Hi.
      symmetry. apply hour_records_ext; [exact Hcodec |].
      apply Hsame; lia. }
  reflexivity.
Qed.

Lemma download_day_hour_isolated_witness :
  exists before after,
    download_day Sample.env_feed Sample.eurusd Sample.jan15
    = Ok (before
          ++ hour_records Sample.env_feed Sample.eurusd Sample.jan15 2
          ++ after) /\
    download_day env_without_hour_2 Sample.eurusd Sample.jan15
    = Ok (before
          ++ hour_records env_without_hour_2 Sample.eurusd Sample.jan15 2
          ++ after).
Proof.
  apply (download_day_hour_isolated Sample.env_feed env_without_hour_2
           Sample.eurusd Sample.jan15 2).
  - reflexivity.
  - lia.
  - intros h Hh Hne.
    assert (Hc : h = 0 \/ h = 1 \/ h = 3 \/ h = 4 \/
                 h = 5 \/ h = 6 \/ h = 7 \/ h = 8 \/ h = 9 \/
                 h = 10 \/ h = 11 \/ h = 12 \/ h = 13 \/
                 h = 14 \/ h = 15 \/ h = 16 \/ h = 17 \/
                 h = 18 \/ h = 19 \/ h = 20 \/ h = 21 \/
                 h = 22 \/ h = 23) by lia.
    decompose [or] Hc; subst h; vm_compute; reflexivity.
Defined.

(** ** Further properties of the range orchestrator *)

Lemma len_app {A} (l1 l2 : list A) : len (l1 ++ l2) = len l1 + len l2.
Proof. unfold len. rewrite length_app. lia. Qed.

Lemma len_concat_map {A B} (f : A -> list B) (l : list A) :
  len (concat (map f l)) = sum_over (fun x => len (f x)) l.
Proof.
  induction l as [| x l IH]; [reflexivity |].
  cbn [map concat sum_over fold_right]. rewrite len_app, IH. reflexivity.
Qed.

Lemma sum_over_ext {A} (f g : A -> Z) (l : list A) :
  (forall x, f x = g x) -> sum_over f l = sum_over g l.
Proof.
  intros H. induction l as [| x l IH]; [reflexivity |].
  cbn [sum_over fold_right]. rewrite H. f_equal. exact IH.
Qed.

(** The frame [download_range] returns, when it returns one, is a
    rearrangement of the records of all the dates. *)
Lemma download_range_perm (env : Env) (self : DukascopyDownloader)
    (start_date end_date : string) (save : bool) (fs : storage)
    (start_dt end_dt : date) (dates : list date) (out : DataFrame) :
  sort_contract (sort_values_timestamp env) ->
  validate_date_range env start_date end_date = Ok (start_dt, end_dt) ->
  generate_date_range env start_dt end_dt = Ok dates ->
  fst (download_range env self start_date end_date save fs) = Ok out ->
  Permutation out (concat (map (day_records env self) dates)).
Proof.
  intros [Hperm _] Hv Hg Hout.
  rewrite download_range_spec, Hv, Hg in Hout. cbv zeta in Hout.
  pose proof (concat_filter_nonempty (map (day_records env self) dates))
    as Hcat. unfold pd_concat in *.
  destruct (filter nonempty (map (day_records env self) dates))
    as [| df dfs] eqn:Hf; cbn [empty_list fst] in Hout;
    injection Hout as <-.
  - rewrite <- Hcat. reflexivity.
  - rewrite <- Hcat. apply Hperm.
Qed.

(** X9: the dataset [download_range] returns holds exactly the ticks of the
    24 hours of the requested dates: a tick is in it if and only if it is a
    record of some hour of some date of the range, and its length is the
    total number of records of all those hours, so the merge and the sort
    neither drop nor add a row. *)
Theorem download_range_provenance (env : Env) (self : DukascopyDownloader)
    (start_date end_date : string) (save : bool) (fs : storage)
    (start_dt end_dt : date) (dates : list date) (out : DataFrame) :
  sort_contract (sort_values_timestamp env) ->
  validate_date_range env start_date end_date = Ok (start_dt, end_dt) ->
  generate_date_range env start_dt end_dt = Ok dates ->
  fst (download_range env self start_date end_date save fs) = Ok out ->
  (forall t,
     In t out <->
     exists dt hour,
       In dt dates /\ 0 <= hour < 24 /\
       In t (hour_records env self dt hour)) /\
  len out
  = sum_over
      (fun dt =>
         sum_over (fun hour => len (hour_records env self dt hour))
                  (range 24))
      dates.
Proof.
  intros Hsort Hv Hg Hout.
  pose proof (download_range_perm env self start_date end_date save fs
                start_dt end_dt dates out Hsort Hv Hg Hout) as Hperm.
  split.
  - intros t. split.
    + intros Hin. apply (Permutation_in _ Hperm) in Hin.
      apply in_concat in Hin as (df & Hdf & Hin).
      apply in_map_iff in Hdf as (dt & <- & Hdt).
      apply In_day_records in Hin as (hour & Hh & Hin). eauto.
    + intros (dt & hour & Hdt & Hh & Hin).
      apply (Permutation_in _ (Permutation_sym Hperm)).
      apply in_concat. exists (day_records env self dt). split.
      * apply in_map_iff. eauto.
      * apply In_day_records. eauto.
  - assert (Hlen : len out = len (concat (map (day_records env self) dates)))
      by (unfold len; f_equal; apply Permutation_length, Hperm).
    rewrite Hlen.
    etransitivity;
      [apply (len_concat_map (B:=Tick) (day_records env self) dates) |].
    apply sum_over_ext. intros dt.
    unfold day_records. rewrite concat_filter_nonempty.
    unfold pd_concat.
    apply (len_concat_map (B:=Tick) (hour_records env self dt)).
Qed.

Lemma download_range_provenance_witness :
  (forall t,
     In t [Sample.tick_b; Sample.tick_a] <->
     exists dt hour,
       In dt [Sample.jan15; Sample.jan16] /\ 0 <= hour < 24 /\
       In t (hour_records Sample.env_pair Sample.eurusd dt hour)) /\
  len [Sample.tick_b; Sample.tick_a]
  = sum_over
      (fun dt =>
         sum_over
           (fun hour =>
              len (hour_records Sample.env_pair Sample.eurusd dt hour))
           (range 24))
      [Sample.jan15; Sample.jan16].
Proof.
  apply (download_range_provenance Sample.env_pair Sample.eurusd
           "2024-01-15" "2024-01-16" true [] Sample.jan15 Sample.jan16).
  - apply sort_reversing_ties_contract.
  - reflexivity.
  - reflexivity.
  - vm_compute. reflexivity.
Defined.

(** ** Finiteness of the prices *)

Lemma digits2_pos_le (p : positive) :
  forall k, 0 <= k -> Zpos p < 2 ^ k -> Zpos (digits2_pos p) <= k.
Proof.
  induction p as [p IH | p IH |]; intros k Hk Hp; cbn [digits2_pos].
  - assert (Hk1 : 1 <= k).
    { destruct (Z.eq_dec k 0) as [-> | ?]; [cbn in Hp; lia | lia]. }
    replace k with (Z.succ (k - 1)) in Hp by lia.
    rewrite Z.pow_succ_r in Hp by lia.
    specialize (IH (k - 1) ltac:(lia) ltac:(lia)). lia.
  - assert (Hk1 : 1 <= k).
    { destruct (Z.eq_dec k 0) as [-> | ?]; [cbn in Hp; lia | lia]. }
    replace k with (Z.succ (k - 1)) in Hp by lia.
    rewrite Z.pow_succ_r in Hp by lia.
    specialize (IH (k - 1) ltac:(lia) ltac:(lia)). lia.
  - destruct (Z.eq_dec k 0) as [-> | ?]; [cbn in Hp; lia | lia].
Qed.

Lemma Zdigits2_le (m k : Z) :
  0 <= k -> 0 <= m < 2 ^ k -> Zdigits2 m <= k.
Proof.
  intros Hk Hm. destruct m as [| p | p]; cbn [Zdigits2]; [lia | | lia].
  apply digits2_pos_le; lia.
Qed.

Lemma shr_1_le (mrs : shr_record) :
  0 <= shr_m mrs -> 0 <= shr_m (shr_1 mrs) <= shr_m mrs.
Proof.
  destruct mrs as [m r s]. cbn [shr_m]. intros Hm.
  destruct m as [| p | p]; [cbn; lia | | lia].
  destruct p; cbn; lia.
Qed.

Lemma iter_pos_shr_1_le (p : positive) (mrs : shr_record) :
  0 <= shr_m mrs -> 0 <= shr_m (iter_pos shr_1 p mrs) <= shr_m mrs.
Proof.
  revert mrs. induction p as [p IH | p IH |]; intros mrs Hm; cbn [iter_pos].
  - pose proof (shr_1_le mrs Hm) as H1.
    pose proof (IH (shr_1 mrs) ltac:(lia)) as H2.
    pose proof (IH (iter_pos shr_1 p (shr_1 mrs)) ltac:(lia)) as H3. lia.
  - pose proof (IH mrs Hm) as H2.
    pose proof (IH (iter_pos shr_1 p mrs) ltac:(lia)) as H3. lia.
  - apply shr_1_le, Hm.
Qed.

Lemma shr_fexp_bounds (m e : Z) (l : location) :
  0 <= m ->
  0 <= shr_m (fst (shr_fexp 53 1024 m e l)) <= m /\
  snd (shr_fexp 53 1024 m e l)
  <= Z.max e (Z.max (Zdigits2 m + e - 53) (-1074)).
Proof.
  intros Hm. unfold shr_fexp, shr, fexp, emin.
  assert (H0 : shr_m (shr_record_of_loc m l) = m)
    by (destruct l as [| []]; reflexivity).
  change (3 - 1024 - 53) with (-1074).
  destruct (Z.max (Zdigits2 m + e - 53) (-1074) - e) as [| p | p] eqn:Hn;
    cbn [fst snd].
  - rewrite H0. lia.
  - pose proof (iter_pos_shr_1_le p (shr_record_of_loc m l)) as Hi.
    rewrite H0 in Hi. split; [apply Hi; lia | lia].
  - rewrite H0. lia.
Qed.

Lemma round_nearest_even_le (m : Z) (l : location) :
  0 <= m -> 0 <= round_nearest_even m l <= m + 1.
Proof.
  intros Hm. unfold round_nearest_even.
  destruct l as [| []]; try destruct (Z.even m); lia.
Qed.

(** Rounding a non-negative mantissa below [2 ^ k] with an exponent of at
    most [E] gives zero or a finite number, as long as the exponent cannot
    reach the top of the format. *)
Lemma binary_round_aux_finite (m e : Z) (l : location) (k E : Z) :
  0 <= k -> 0 <= m < 2 ^ k -> e <= E -> Z.max E (-1074) + 2 * k <= 971 ->
  binary_round_aux 53 1024 false m e l = S754_zero false \/
  exists m' e',
    binary_round_aux 53 1024 false m e l = S754_finite false m' e' /\
    Zpos m' <= 2 ^ k /\ e' <= Z.max E (-1074) + 2 * k.
Proof.
  intros Hk Hm He Hbound. unfold binary_round_aux.
  pose proof (shr_fexp_bounds m e l ltac:(lia)) as [Hm1 He1].
  pose proof (Zdigits2_le m k Hk Hm) as Hd.
  destruct (shr_fexp 53 1024 m e l) as [mrs' e']. cbn [fst snd] in *.
  pose proof (round_nearest_even_le (shr_m mrs') (loc_of_shr_record mrs')
                ltac:(lia)) as Hr.
  set (m1 := round_nearest_even (shr_m mrs') (loc_of_shr_record mrs')) in *.
  assert (Hpow : 2 ^ k < 2 ^ (k + 1))
    by (apply Z.pow_lt_mono_r; lia).
  pose proof (Zdigits2_le m1 (k + 1) ltac:(lia) ltac:(lia)) as Hd1.
  pose proof (shr_fexp_bounds m1 e' loc_Exact ltac:(lia)) as [Hm2 He2].
  destruct (shr_fexp 53 1024 m1 e' loc_Exact) as [mrs'' e''].
  cbn [fst snd] in *.
  destruct (shr_m mrs'') as [| p | p]; [left; reflexivity | | lia].
  right. exists p, e''.
  replace (e'' <=? 1024 - 53) with true
    by (symmetry; apply Z.leb_le; lia).
  split; [reflexivity |]. lia.
Qed.

Lemma iter_xO_pow (p d : positive) :
  Zpos (Pos.iter xO p d) = Zpos p * 2 ^ Zpos d.
Proof.
  induction d as [| d IH] using Pos.peano_ind.
  - cbn. lia.
  - rewrite Pos.iter_succ, Pos2Z.inj_succ, Z.pow_succ_r by lia.
    rewrite Pos2Z.inj_xO, IH. lia.
Qed.

(** An unsigned 32-bit integer converts to zero or to a finite number of
    moderate size. *)
Lemma of_int_finite (n : Z) :
  0 <= n < 4294967296 ->
  Float.of_int n = S754_zero false \/
  exists m e,
    Float.of_int n = S754_finite false m e /\
    Zpos m <= 2 ^ 84 /\ e <= 168.
Proof.
  intros Hn. unfold Float.of_int, binary_normalize, Float.prec64,
    Float.emax64.
  destruct n as [| p | p]; [left; reflexivity | | lia].
  unfold binary_round, shl_align, fexp, emin.
  change (3 - 1024 - 53) with (-1074).
  pose proof (digits2_pos_le p 32 ltac:(lia) ltac:(cbn; lia)) as Hd.
  assert (Hd1 : 1 <= Zpos (digits2_pos p)) by lia.
  set (ex' := Z.max (Zpos (digits2_pos p) + 0 - 53) (-1074)) in *.
  assert (Hex' : -52 <= ex' <= 0) by (subst ex'; lia).
  assert (Hcases :
            exists mz ez,
              (match ex' - 0 with
               | Zneg d => (Pos.iter xO p d, ex')
               | _ => (p, 0)
               end) = (mz, ez) /\ Zpos mz < 2 ^ 84 /\ ez <= 0).
  { destruct (ex' - 0) as [| d | d] eqn:Hsub.
    - exists p, 0. split; [reflexivity |]. split; [| lia].
      change (2 ^ 84) with 19342813113834066795298816. lia.
    - exists p, 0. split; [reflexivity |]. split; [| lia].
      change (2 ^ 84) with 19342813113834066795298816. lia.
    - exists (Pos.iter xO p d), ex'. split; [reflexivity |].
      split; [| lia]. rewrite iter_xO_pow.
      assert (Hpd : 2 ^ Zpos d <= 2 ^ 52)
        by (apply Z.pow_le_mono_r; lia).
      assert (Hpos : 0 < 2 ^ Zpos d) by (apply Z.pow_pos_nonneg; lia).
      change (2 ^ 52) with 4503599627370496 in Hpd.
      change (2 ^ 84) with 19342813113834066795298816. nia. }
  destruct Hcases as (mz & ez & -> & Hmz & Hez).
  destruct (binary_round_aux_finite (Zpos mz) ez loc_Exact 84 0)
    as [H0 | (m' & e' & Hfin & Hm' & He')]; try lia.
  - left. exact H0.
  - right. exists m', e'. split; [exact Hfin |]. split; [exact Hm' | lia].
Qed.

Lemma div_100000_finite (x : Float.float) :
  (x = S754_zero false \/
   exists m e, x = S754_finite false m e /\ Zpos m <= 2 ^ 84 /\ e <= 168) ->
  is_finite (Float.div x (Float.of_int 100000)) = true.
Proof.
  change (Float.of_int 100000) with (S754_finite false 6871947673600000 (-36)).
  intros [-> | (m1 & e1 & -> & Hm1 & He1)]; [reflexivity |].
  unfold Float.div, SFdiv, SFdiv_core_binary, Float.prec64, Float.emax64.
  cbv zeta. cbn [xorb].
  change (Zdigits2 6871947673600000) with 53.
  unfold fexp, emin. change (3 - 1024 - 53) with (-1074).
  set (d1 := Zdigits2 (Zpos m1)).
  assert (Hd1 : 1 <= d1) by (subst d1; cbn; lia).
  set (e' := Z.min (Z.max (d1 + e1 - (53 + -36) - 53) (-1074)) (e1 - -36)).
  assert (He' : e' <= e1 + 36) by (subst e'; lia).
  assert (Hs : e1 - -36 - e' <= 105) by (subst e'; lia).
  set (m' := match e1 - -36 - e' with
             | Z0 => Zpos m1
             | Zpos _ => Z.shiftl (Zpos m1) (e1 - -36 - e')
             | Zneg _ => 0
             end).
  assert (Hm' : 0 <= m' < 2 ^ 190).
  { subst m'. change (2 ^ 84) with 19342813113834066795298816 in Hm1.
    destruct (e1 - -36 - e') as [| s | s] eqn:Hsub.
    - change (2 ^ 190)
        with 1569275433846670190958947355801916604025588861116008628224.
      lia.
    - rewrite Z.shiftl_mul_pow2 by lia.
      assert (Hps : 2 ^ Zpos s <= 2 ^ 105)
        by (apply Z.pow_le_mono_r; lia).
      assert (Hpos : 0 < 2 ^ Zpos s) by (apply Z.pow_pos_nonneg; lia).
      change (2 ^ 105) with 40564819207303340847894502572032 in Hps.
      change (2 ^ 190)
        with 1569275433846670190958947355801916604025588861116008628224.
      nia.
    - change (2 ^ 190)
        with 1569275433846670190958947355801916604025588861116008628224.
      lia. }
  pose proof (Z.div_pos m' 6871947673600000 ltac:(lia) ltac:(lia)) as Hq0.
  pose proof (Z.div_le_upper_bound m' 6871947673600000 m' ltac:(lia)
                ltac:(lia)) as Hq1.
  unfold Z.div in Hq0, Hq1.
  destruct (Z.div_eucl m' 6871947673600000) as [q r].
  destruct (binary_round_aux_finite q e'
              (new_location 6871947673600000 r) 190 204)
    as [-> | (m2 & e2 & -> & _ & _)]; try lia; reflexivity.
Qed.

(** The quotient of an unsigned 32-bit integer by 100000.0 is a number. *)
Lemma price_finite (n : Z) :
  0 <= n < 4294967296 ->
  is_finite (Float.div (Float.of_int n) (Float.of_int 100000)) = true.
Proof.
  intros Hn. apply div_100000_finite, of_int_finite, Hn.
Qed.

(** X10: the ask and bid of every tick the parser returns are numbers:
    dividing an unsigned 32-bit integer by 100000.0 never gives an infinity
    or NaN.  (The volumes are taken from the buffer as they are and can be
    either.) *)
Theorem parse_bi5_prices_finite (data : bytes) (dt : date) (hour : Z)
    (ticks : DataFrame) (t : Tick) :
  _parse_bi5 data dt hour = Ok ticks -> In t ticks ->
  is_finite (ask t) = true /\ is_finite (bid t) = true.
Proof.
  intros H Hin.
  apply parse_bi5_ok_inv in H as [[_ ->] | (base & _ & ->)];
    [destruct Hin |].
  apply in_map_iff in Hin as (i & <- & _).
  unfold record_tick. cbv zeta. cbn [ask bid].
  split; apply price_finite, be_uint32_range.
Qed.

Lemma parse_bi5_prices_finite_witness :
  is_finite (ask Sample.tick_a3) = true /\
  is_finite (bid Sample.tick_a3) = true.
Proof.
  apply (parse_bi5_prices_finite Sample.record_a Sample.jan15 3
           [Sample.tick_a3] Sample.tick_a3).
  - vm_compute. reflexivity.
  - left. reflexivity.
Defined.

(** ** The constructor and the command line *)



Lemma startswith_sep_append (a b : string) :
  a <> ""%string -> startswith_sep (a ++ b) = startswith_sep a.
Proof.
  destruct a as [| c a]; [contradiction | reflexivity].
Qed.




(** ** The result when no two ticks share a timestamp *)

Lemma sorted_perm_unique (l1 : DataFrame) :
  forall l2,
    StronglySorted ts_le l1 -> StronglySorted ts_le l2 ->
    Permutation l1 l2 -> NoDup (map timestamp l1) -> l1 = l2.
Proof.
  induction l1 as [| a l1 IH]; intros l2 H1 H2 Hperm Hnd.
  - apply Permutation_nil in Hperm. congruence.
  - destruct l2 as [| b l2];
      [apply Permutation_sym, Permutation_nil in Hperm; discriminate |].
    inversion H1 as [| ? ? Hs1 Hall1]; subst.
    inversion H2 as [| ? ? Hs2 Hall2]; subst.
    cbn [map] in Hnd. inversion Hnd as [| ? ? Hnotin Hnd']; subst.
    rewrite Forall_forall in Hall1, Hall2.
    assert (Hab : a = b).
    { assert (Ha : In a (b :: l2))
        by (apply (Permutation_in _ Hperm); left; reflexivity).
      assert (Hb : In b (a :: l1))
        by (apply (Permutation_in _ (Permutation_sym Hperm)); left;
            reflexivity).
      destruct Hb as [Hb | Hb]; [exact Hb |].
      destruct Ha as [Ha | Ha]; [symmetry; exact Ha |].
      pose proof (Hall1 b Hb) as Hle1. pose proof (Hall2 a Ha) as Hle2.
      unfold ts_le in *. exfalso. apply Hnotin.
      replace (timestamp a) with (timestamp b) by lia.
      apply in_map, Hb. }
    subst b. f_equal.
    apply IH; try assumption.
    apply (Permutation_cons_inv Hperm).
Qed.

(** X12: when no two ticks of the dataset share a timestamp, the dataset
    [download_range] returns does not depend on the sorting routine: any
    two routines that return a sorted rearrangement give the same frame. *)
Theorem download_range_unique_without_ties (env : Env)
    (sort' : DataFrame -> DataFrame) (self : DukascopyDownloader)
    (start_date end_date : string) (save : bool) (fs : storage) :
  sort_contract (sort_values_timestamp env) ->
  sort_contract sort' ->
  (forall out,
     fst (download_range env self start_date end_date save fs) = Ok out ->
     NoDup (map timestamp out)) ->
  fst (download_range (with_sort env sort') self start_date end_date save fs)
  = fst (download_range env self start_date end_date save fs).
Proof.
  intros [Hperm Hsorted] [Hperm' Hsorted'] Hnd.
  rewrite !download_range_spec in *.
  change (validate_date_range (with_sort env sort'))
    with (validate_date_range env).
  destruct (validate_date_range env start_date end_date) as [[s e] | x];
    [| reflexivity].
  change (generate_date_range (with_sort env sort'))
    with (generate_date_range env).
  destruct (generate_date_range env s e) as [dates | x]; [| reflexivity].
  change (day_records (with_sort env sort')) with (day_records env).
  change (sort_values_timestamp (with_sort env sort')) with sort'.
  cbv zeta in *.
  destruct (empty_list (filter nonempty _)); cbn [fst] in *;
    [reflexivity |].
  f_equal. symmetry.
  set (all := pd_concat (filter nonempty (map (day_records env self) dates)))
    in *.
  apply sorted_perm_unique.
  - apply Sorted_StronglySorted; [apply ts_le_trans | apply Hsorted].
  - apply Sorted_StronglySorted; [apply ts_le_trans | apply Hsorted'].
  - rewrite Hperm, Hperm'. reflexivity.
  - apply Hnd. reflexivity.
Qed.

Lemma download_range_unique_without_ties_witness :
  fst (download_range (with_sort env_distinct sort_reversing_ties)
         Sample.eurusd "2024-01-15" "2024-01-16" true [])
  = fst (download_range env_distinct Sample.eurusd
           "2024-01-15" "2024-01-16" true []).
Proof.
  apply (download_range_unique_without_ties env_distinct sort_reversing_ties
           Sample.eurusd "2024-01-15" "2024-01-16" true []).
  - apply sort_keeping_ties_contract.
  - apply sort_reversing_ties_contract.
  - intros out Hout. vm_compute in Hout. injection Hout as <-.
    cbn [map timestamp].
    repeat constructor; cbn [In]; intuition discriminate.
Defined.
